(** * The post pipeline of [api/generate_posts.py]

    A shallow embedding of the module: the text generator with its
    fallback model, the post composer, the per-day review store and the
    publisher, over an explicit model of what the module touches from
    outside (the HTTP services, the file system, the clock, the random
    choices).

    Strings are Rocq strings: one [ascii] is one character of a Python
    [str], so the model covers the code points below 256. *)

From Equations Require Import Equations.
From Stdlib Require Import String Ascii List ZArith QArith Bool Lia Arith.
Import ListNotations.
Open Scope string_scope.
Open Scope Z_scope.

(** ** Python strings *)

Module PyStr.

(** [str.isspace] on one character, for the code points below 256:
    TAB..CR, FS..US, space, NEL and NBSP. *)
Definition is_space (c : ascii) : bool :=
  let n := nat_of_ascii c in
  (((9 <=? n) && (n <=? 13)) || ((28 <=? n) && (n <=? 32))
   || (n =? 133) || (n =? 160))%nat.

Definition is_empty (s : string) : bool :=
  match s with EmptyString => true | String _ _ => false end.

(** [s.lstrip()] *)
Fixpoint lstrip (s : string) : string :=
  match s with
  | EmptyString => EmptyString
  | String c s' => if is_space c then lstrip s' else s
  end.

(** [s.rstrip()] *)
Fixpoint rstrip (s : string) : string :=
  match s with
  | EmptyString => EmptyString
  | String c s' =>
      match rstrip s' with
      | EmptyString => if is_space c then EmptyString else String c EmptyString
      | r => String c r
      end
  end.

(** [s.strip()] *)
Definition strip (s : string) : string := rstrip (lstrip s).

(** [s.split()]: the maximal runs of characters that are not white space.
    [cur] is the word being read. *)
Fixpoint split_from (cur : string) (s : string) : list string :=
  match s with
  | EmptyString => if is_empty cur then [] else [cur]
  | String c s' =>
      if is_space c
      then (if is_empty cur then split_from EmptyString s'
            else cur :: split_from EmptyString s')
      else split_from (cur ++ String c EmptyString) s'
  end.

Definition split (s : string) : list string := split_from EmptyString s.

(** [s[:n]] *)
Fixpoint slice_to (n : nat) (s : string) : string :=
  match n, s with
  | O, _ => EmptyString
  | _, EmptyString => EmptyString
  | S n', String c s' => String c (slice_to n' s')
  end.

(** ASCII lower-casing, as [str.lower] does on header names. *)
Definition lower_char (c : ascii) : ascii :=
  let n := nat_of_ascii c in
  if ((65 <=? n) && (n <=? 90))%nat then ascii_of_nat (n + 32) else c.

Fixpoint lower (s : string) : string :=
  match s with
  | EmptyString => EmptyString
  | String c s' => String (lower_char c) (lower s')
  end.

(** [n * s]: the string repeated. *)
Fixpoint repeat (s : string) (n : nat) : string :=
  match n with O => EmptyString | S n' => s ++ repeat s n' end.

End PyStr.

(** ** JSON values and the [json] module

    The values [json.load] builds and [json.dump] accepts: [None], booleans,
    strings, lists and dictionaries with string keys, a dictionary kept as
    its items in insertion order.  Numbers are outside the fragment: no
    value this program stores has one, and [loads] rejects a document that
    contains one. *)

#[warnings="-register-all"]
Inductive value : Type :=
| VNone
| VBool (b : bool)
| VStr (s : string)
| VList (l : list value)
| VDict (d : list (string * value)).

Module Json.

(** [d[k] = v] on a dictionary: an existing key keeps its place. *)
Fixpoint dict_set (d : list (string * value)) (k : string) (v : value)
  : list (string * value) :=
  match d with
  | [] => [(k, v)]
  | (k', v') :: d' =>
      if String.eqb k' k then (k, v) :: d' else (k', v') :: dict_set d' k v
  end.

(** [d.get(k)] *)
Fixpoint dict_get (d : list (string * value)) (k : string) : option value :=
  match d with
  | [] => None
  | (k', v) :: d' => if String.eqb k' k then Some v else dict_get d' k
  end.

(** [dict(pairs)] *)
Definition dict_of_pairs (ps : list (string * value)) : list (string * value) :=
  fold_left (fun d kv => dict_set d (fst kv) (snd kv)) ps [].

(** *** Encoder ([json.dumps(v, indent=2)], [ensure_ascii] left on) *)

Definition hex_digit (n : nat) : ascii :=
  match n with
  | 0 => "0" | 1 => "1" | 2 => "2" | 3 => "3" | 4 => "4" | 5 => "5"
  | 6 => "6" | 7 => "7" | 8 => "8" | 9 => "9" | 10 => "a" | 11 => "b"
  | 12 => "c" | 13 => "d" | 14 => "e" | _ => "f"
  end%nat%char.

(** One character of a string literal: the short escapes, the character
    itself from space to tilde, [\u00xx] for the rest. *)
Definition escape_char (c : ascii) : string :=
  let n := nat_of_ascii c in
  if (n =? 34)%nat then String "\" (String "034" EmptyString)
  else if (n =? 92)%nat then "\\"
  else if (n =? 10)%nat then "\n"
  else if (n =? 13)%nat then "\r"
  else if (n =? 9)%nat then "\t"
  else if (n =? 8)%nat then "\b"
  else if (n =? 12)%nat then "\f"
  else if ((32 <=? n) && (n <=? 126))%nat then String c EmptyString
  else "\u00" ++ String (hex_digit (n / 16)) (String (hex_digit (n mod 16)) EmptyString).

Fixpoint escape (s : string) : string :=
  match s with
  | EmptyString => EmptyString
  | String c s' => escape_char c ++ escape s'
  end.

Definition quote : string := String "034" EmptyString.
Definition newline : string := String "010" EmptyString.

Definition encode_string (s : string) : string := quote ++ escape s ++ quote.

(** The line break and indentation written before an item at depth [level]. *)
Definition newline_indent (level : nat) : string :=
  newline ++ PyStr.repeat "  " level.

(** Lists and dictionaries put each item on a line of its own, one step
    deeper, with a comma between items; the empty ones are written closed. *)
Fixpoint encode (level : nat) (v : value) : string :=
  match v with
  | VNone => "null"
  | VBool true => "true"
  | VBool false => "false"
  | VStr s => encode_string s
  | VList [] => "[]"
  | VList l =>
      "[" ++ newline_indent (S level)
      ++ String.concat ("," ++ newline_indent (S level))
           (map (encode (S level)) l)
      ++ newline_indent level ++ "]"
  | VDict [] => "{}"
  | VDict d =>
      "{" ++ newline_indent (S level)
      ++ String.concat ("," ++ newline_indent (S level))
           (map (fun kv => encode_string (fst kv) ++ ": " ++ encode (S level) (snd kv)) d)
      ++ newline_indent level ++ "}"
  end.

Definition dumps (v : value) : string := encode 0 v.

(** *** Decoder ([json.loads]) *)

Definition is_ws (c : ascii) : bool :=
  let n := nat_of_ascii c in
  ((n =? 32) || (n =? 9) || (n =? 10) || (n =? 13))%nat.

Fixpoint skip_ws (s : string) : string :=
  match s with
  | EmptyString => EmptyString
  | String c s' => if is_ws c then skip_ws s' else s
  end.

Definition hex_value (c : ascii) : option nat :=
  let n := nat_of_ascii c in
  if ((48 <=? n) && (n <=? 57))%nat then Some (n - 48)%nat
  else if ((97 <=? n) && (n <=? 102))%nat then Some (n - 87)%nat
  else if ((65 <=? n) && (n <=? 70))%nat then Some (n - 55)%nat
  else None.

(** The character a [\uXXXX] escape stands for, when it is below 256. *)
Definition unicode_escape (a b c d : ascii) : option ascii :=
  match hex_value a, hex_value b, hex_value c, hex_value d with
  | Some x, Some y, Some z, Some t =>
      let n := (((x * 16 + y) * 16 + z) * 16 + t)%nat in
      if (n <? 256)%nat then Some (ascii_of_nat n) else None
  | _, _, _, _ => None
  end.

Definition simple_escape (c : ascii) : option ascii :=
  let n := nat_of_ascii c in
  if (n =? 34)%nat then Some (ascii_of_nat 34)
  else if (n =? 92)%nat then Some (ascii_of_nat 92)
  else if (n =? 47)%nat then Some (ascii_of_nat 47)
  else if (n =? 98)%nat then Some (ascii_of_nat 8)
  else if (n =? 102)%nat then Some (ascii_of_nat 12)
  else if (n =? 110)%nat then Some (ascii_of_nat 10)
  else if (n =? 114)%nat then Some (ascii_of_nat 13)
  else if (n =? 116)%nat then Some (ascii_of_nat 9)
  else None.

(** Reads a string literal after its opening quote: the text and what
    follows the closing quote.  A raw control character is an error. *)
Fixpoint scan_string (s : string) : option (string * string) :=
  match s with
  | EmptyString => None
  | String c s1 =>
      let n := nat_of_ascii c in
      if (n =? 34)%nat then Some (EmptyString, s1)
      else if (n =? 92)%nat then
        match s1 with
        | EmptyString => None
        | String e s2 =>
            if (nat_of_ascii e =? 117)%nat then
              match s2 with
              | String a (String b (String c' (String d s3))) =>
                  match unicode_escape a b c' d with
                  | Some u =>
                      match scan_string s3 with
                      | Some (t, rest) => Some (String u t, rest)
                      | None => None
                      end
                  | None => None
                  end
              | _ => None
              end
            else
              match simple_escape e with
              | Some u =>
                  match scan_string s2 with
                  | Some (t, rest) => Some (String u t, rest)
                  | None => None
                  end
              | None => None
              end
        end
      else if (n <? 32)%nat then None
      else
        match scan_string s1 with
        | Some (t, rest) => Some (String c t, rest)
        | None => None
        end
  end.

(** [s] starts with [p]: what follows. *)
Fixpoint expect (p s : string) : option string :=
  match p with
  | EmptyString => Some s
  | String c p' =>
      match s with
      | EmptyString => None
      | String c' s' => if Ascii.eqb c c' then expect p' s' else None
      end
  end.

(** The scanner.  Every call reads at least one character, so the length of
    the document bounds the depth; [fuel] counts it. *)
Fixpoint scan_value (fuel : nat) (s : string) : option (value * string) :=
  match fuel with
  | O => None
  | S f =>
      match s with
      | EmptyString => None
      | String c s1 =>
          let n := nat_of_ascii c in
          if (n =? 110)%nat then
            match expect "ull" s1 with Some r => Some (VNone, r) | None => None end
          else if (n =? 116)%nat then
            match expect "rue" s1 with Some r => Some (VBool true, r) | None => None end
          else if (n =? 102)%nat then
            match expect "alse" s1 with Some r => Some (VBool false, r) | None => None end
          else if (n =? 34)%nat then
            match scan_string s1 with
            | Some (t, r) => Some (VStr t, r)
            | None => None
            end
          else if (n =? 91)%nat then
            match skip_ws s1 with
            | String "]" r => Some (VList [], r)
            | s2 =>
                match scan_items f s2 with
                | Some (l, r) => Some (VList l, r)
                | None => None
                end
            end
          else if (n =? 123)%nat then
            match skip_ws s1 with
            | String "}" r => Some (VDict [], r)
            | s2 =>
                match scan_members f s2 with
                | Some (ps, r) => Some (VDict (dict_of_pairs ps), r)
                | None => None
                end
            end
          else None
      end
  end

(** The items of a list, from the first character of an item. *)
with scan_items (fuel : nat) (s : string) : option (list value * string) :=
  match fuel with
  | O => None
  | S f =>
      match scan_value f s with
      | Some (v, r) =>
          match skip_ws r with
          | String "," r1 =>
              match scan_items f (skip_ws r1) with
              | Some (l, r2) => Some (v :: l, r2)
              | None => None
              end
          | String "]" r1 => Some ([v], r1)
          | _ => None
          end
      | None => None
      end
  end

(** The members of an object, from the opening quote of a key. *)
with scan_members (fuel : nat) (s : string)
  : option (list (string * value) * string) :=
  match fuel with
  | O => None
  | S f =>
      match s with
      | String "034" s1 =>
          match scan_string s1 with
          | Some (k, r) =>
              match skip_ws r with
              | String ":" r1 =>
                  match scan_value f (skip_ws r1) with
                  | Some (v, r2) =>
                      match skip_ws r2 with
                      | String "," r3 =>
                          match scan_members f (skip_ws r3) with
                          | Some (ps, r4) => Some ((k, v) :: ps, r4)
                          | None => None
                          end
                      | String "}" r3 => Some ([(k, v)], r3)
                      | _ => None
                      end
                  | None => None
                  end
              | _ => None
              end
          | None => None
          end
      | _ => None
      end
  end.

(** [json.loads(s)]: one value, white space around it, nothing else.
    [None] stands for the [JSONDecodeError]. *)
Definition loads (s : string) : option value :=
  match scan_value (S (String.length s)) (skip_ws s) with
  | Some (v, r) => if PyStr.is_empty (skip_ws r) then Some v else None
  | None => None
  end.

(** *** What the round trip needs *)

(** No key twice. *)
Fixpoint distinct (l : list string) : bool :=
  match l with
  | [] => true
  | k :: ks => negb (existsb (String.eqb k) ks) && distinct ks
  end.

(** A value as Python holds it: the keys of every dictionary are distinct. *)
Fixpoint faithful (v : value) : bool :=
  match v with
  | VList l => forallb faithful l
  | VDict d => distinct (map fst d) && forallb (fun kv => faithful (snd kv)) d
  | _ => true
  end.

(** The first character of an encoded value. *)
Definition value_head (c : ascii) : Prop :=
  c = "n"%char \/ c = "t"%char \/ c = "f"%char \/ c = "034"%char
  \/ c = "["%char \/ c = "{"%char.

(** Scanning gives back an encoded value and what follows it. *)
Definition scans (x : value) : Prop :=
  faithful x = true ->
  forall level rest fuel,
    (String.length (encode level x) < fuel)%nat ->
    scan_value fuel (encode level x ++ rest) = Some (x, rest).

(** What is written between two items at depth [level]. *)
Definition item_separator (level : nat) : string := "," ++ newline_indent level.

(** One member of an encoded dictionary. *)
Definition member (level : nat) (kv : string * value) : string :=
  encode_string (fst kv) ++ ": " ++ encode level (snd kv).

End Json.

(** ** The outside world

    What the module reaches through [requests], [open], [os.getenv],
    [datetime], [random] and [uuid]. *)

(** A [requests.Response], as far as the module reads it. *)
Record Response : Type := {
  status_code : Z;
  headers : list (string * string);
  text : string
}.

(** What a [requests.post] call comes back with: a response, or an
    exception of the transport (connection refused, timeout, ...). *)
Inductive Outcome : Type :=
| Answered (r : Response)
| Broken (message : string).

(** The exceptions the module meets. *)
Inductive Exn : Type :=
| HTTPError (response : Response)               (* requests.exceptions.HTTPError *)
| HTTPException (status : Z) (detail : string)  (* fastapi.HTTPException *)
| OtherError (message : string).                (* any other Exception *)

Record GenerationParameters : Type := {
  min_length : Z;
  max_length : Z;
  temperature : Q
}.

(** The two JSON bodies the module posts. *)
Inductive Payload : Type :=
| Generation (inputs : string) (parameters : GenerationParameters)
| Publication (author : string) (commentary : value) (visibility : string)
              (feedDistribution : string)
              (targetEntities thirdPartyDistributionChannels : list string)
              (lifecycleState : string) (isReshareDisabledByAuthor : bool).

Record Request : Type := {
  url : string;
  json : Payload;
  request_headers : list (string * string)
}.

Inductive File : Type :=
| Missing
| Unreadable
| Data (content : string).

Record World : Type := {
  HUGGINGFACE_API_KEY : option string;         (* os.getenv at import time *)
  service : list Request -> Request -> Outcome;  (* the remote services, given
                                                    the requests sent before *)
  sent : list Request;                         (* requests sent, oldest first *)
  files : string -> File;
  writable : string -> bool;                   (* open(path, 'w') succeeds *)
  today : string;                              (* now().strftime("%Y%m%d") *)
  now_isoformat : string;
  entropy : nat -> nat;                        (* the random source *)
  draws : nat;                                 (* draws made so far *)
  uuid_of : nat -> string
}.

Definition with_sent (w : World) (l : list Request) : World :=
  {| HUGGINGFACE_API_KEY := HUGGINGFACE_API_KEY w; service := service w;
     sent := l; files := files w; writable := writable w; today := today w;
     now_isoformat := now_isoformat w; entropy := entropy w; draws := draws w;
     uuid_of := uuid_of w |}.

Definition with_files (w : World) (f : string -> File) : World :=
  {| HUGGINGFACE_API_KEY := HUGGINGFACE_API_KEY w; service := service w;
     sent := sent w; files := f; writable := writable w; today := today w;
     now_isoformat := now_isoformat w; entropy := entropy w; draws := draws w;
     uuid_of := uuid_of w |}.

Definition with_draws (w : World) (n : nat) : World :=
  {| HUGGINGFACE_API_KEY := HUGGINGFACE_API_KEY w; service := service w;
     sent := sent w; files := files w; writable := writable w; today := today w;
     now_isoformat := now_isoformat w; entropy := entropy w; draws := n;
     uuid_of := uuid_of w |}.

(** ** Computations: state passing with exceptions *)

Inductive Res (A : Type) : Type :=
| Return (a : A)
| Raise (e : Exn).
Arguments Return {A} a.
Arguments Raise {A} e.

Definition M (A : Type) : Type := World -> Res A * World.

Definition ret {A} (a : A) : M A := fun w => (Return a, w).
Definition raise {A} (e : Exn) : M A := fun w => (Raise e, w).

Definition bind {A B} (m : M A) (k : A -> M B) : M B :=
  fun w =>
    match m w with
    | (Return a, w') => k a w'
    | (Raise e, w') => (Raise e, w')
    end.

(** [try: m  except ...: handler] *)
Definition try_except {A} (m : M A) (handler : Exn -> M A) : M A :=
  fun w =>
    match m w with
    | (Return a, w') => (Return a, w')
    | (Raise e, w') => handler e w'
    end.

(** A step that reads no state: it returns or raises. *)
Definition lift {A} (r : Res A) : M A := fun w => (r, w).

Definition bind_res {A B} (r : Res A) (k : A -> Res B) : Res B :=
  match r with
  | Return a => k a
  | Raise e => Raise e
  end.

Notation "x <- m ;; k" := (bind m (fun x => k))
  (at level 61, m at next level, right associativity).
Notation "m ;;; k" := (bind m (fun _ => k))
  (at level 61, right associativity).
Notation "x <~ r ;; k" := (bind_res r (fun x => k))
  (at level 61, r at next level, right associativity).

Module Py.

(** [requests.post(url, json=payload, headers=headers)] *)
Definition requests_post (u : string) (payload : Payload)
    (hs : list (string * string)) : M Response :=
  fun w =>
    let request := {| url := u; json := payload; request_headers := hs |} in
    let w' := with_sent w (sent w ++ [request]) in
    match service w (sent w) request with
    | Answered r => (Return r, w')
    | Broken msg => (Raise (OtherError msg), w')
    end.

(** [response.raise_for_status()]: [requests] raises [HTTPError], carrying
    the response, for the statuses from 400 to 599 and for no other. *)
Definition is_error_status (r : Response) : bool :=
  (400 <=? status_code r) && (status_code r <? 600).

Definition raise_for_status (r : Response) : Res unit :=
  if is_error_status r then Raise (HTTPError r) else Return tt.

(** [response.json()] *)
Definition response_json (r : Response) : Res value :=
  match Json.loads (text r) with
  | Some v => Return v
  | None => Raise (OtherError "JSONDecodeError")
  end.

(** [v[0]] *)
Definition getitem_0 (v : value) : Res value :=
  match v with
  | VList (x :: _) => Return x
  | VList [] => Raise (OtherError "IndexError")
  | VStr (String c _) => Return (VStr (String c EmptyString))
  | VStr EmptyString => Raise (OtherError "IndexError")
  | VDict _ => Raise (OtherError "KeyError")
  | _ => Raise (OtherError "TypeError")
  end.

(** [v[k]] for a string [k] *)
Definition getitem (v : value) (k : string) : Res value :=
  match v with
  | VDict d =>
      match Json.dict_get d k with
      | Some x => Return x
      | None => Raise (OtherError "KeyError")
      end
  | _ => Raise (OtherError "TypeError")
  end.

(** [v.strip()] *)
Definition strip (v : value) : Res string :=
  match v with
  | VStr s => Return (PyStr.strip s)
  | _ => Raise (OtherError "AttributeError")
  end.

(** [str(e)] on an exception *)
Definition str (e : Exn) : string :=
  match e with
  | HTTPError _ => "HTTPError"
  | HTTPException _ detail => detail
  | OtherError message => message
  end.

(** [bool(v)] *)
Definition truthy (v : value) : bool :=
  match v with
  | VNone => false
  | VBool b => b
  | VStr s => negb (PyStr.is_empty s)
  | VList l => match l with [] => false | _ => true end
  | VDict d => match d with [] => false | _ => true end
  end.

(** [v == s] for a string [s] *)
Definition eq_str (v : value) (s : string) : bool :=
  match v with
  | VStr t => String.eqb t s
  | _ => false
  end.

(** [iter(v)]: the items a [for] over [v] visits. *)
Definition iter (v : value) : Res (list value) :=
  match v with
  | VList l => Return l
  | VDict d => Return (map (fun kv => VStr (fst kv)) d)
  | VStr s => Return (map (fun c => VStr (String c EmptyString)) (list_ascii_of_string s))
  | _ => Raise (OtherError "TypeError")
  end.

(** [headers.get(name, default)] on the case-insensitive dictionary of
    response headers. *)
Fixpoint headers_get (hs : list (string * string)) (name default : string)
  : string :=
  match hs with
  | [] => default
  | (k, v) :: hs' =>
      if String.eqb (PyStr.lower k) (PyStr.lower name) then v
      else headers_get hs' name default
  end.

(** [random.choice(seq)] on a sequence that is not empty. *)
Definition random_choice (seq : list string) : M string :=
  fun w =>
    (Return (nth (entropy w (draws w) mod length seq)%nat seq EmptyString),
     with_draws w (S (draws w))).

(** [str(uuid.uuid4())] *)
Definition uuid4 : M string :=
  fun w => (Return (uuid_of w (draws w)), with_draws w (S (draws w))).

(** [open(path, 'r').read()] *)
Definition read_file (path : string) : M string :=
  fun w =>
    match files w path with
    | Data content => (Return content, w)
    | Missing => (Raise (OtherError "FileNotFoundError"), w)
    | Unreadable => (Raise (OtherError "OSError"), w)
    end.

(** [open(path, 'w').write(content)] *)
Definition write_file (path content : string) : M unit :=
  fun w =>
    if writable w path
    then (Return tt,
          with_files w (fun p => if String.eqb p path then Data content else files w p))
    else (Raise (OtherError "OSError"), w).

(** [template.format(name=..., ...)] for templates whose fields are plain
    names: [{name}] is replaced, a name that is not given is a [KeyError].
    [field] is the name being read, after an opening brace. *)
Fixpoint format_from (field : option string) (template : string)
    (kwargs : list (string * string)) : option string :=
  match template with
  | EmptyString => match field with None => Some EmptyString | Some _ => None end
  | String c rest =>
      match field with
      | None =>
          if Ascii.eqb c "{" then format_from (Some EmptyString) rest kwargs
          else match format_from None rest kwargs with
               | Some out => Some (String c out)
               | None => None
               end
      | Some name =>
          if Ascii.eqb c "}" then
            match find (fun kv => String.eqb (fst kv) name) kwargs,
                  format_from None rest kwargs with
            | Some kv, Some out => Some (snd kv ++ out)
            | _, _ => None
            end
          else format_from (Some (name ++ String c EmptyString)) rest kwargs
      end
  end.

Definition format (template : string) (kwargs : list (string * string)) : Res string :=
  match format_from None template kwargs with
  | Some out => Return out
  | None => Raise (OtherError "KeyError")
  end.

End Py.

(** ** The module *)

Record Config : Type := {
  huggingface_api_key : option string;
  post_count_per_day : nat;
  content_topics : list string;
  post_templates : list string;
  output_dir : string;
  manual_review : bool
}.

Definition CONFIG (w : World) : Config := {|
  huggingface_api_key := HUGGINGFACE_API_KEY w;
  post_count_per_day := 4;
  content_topics :=
    [ "Emerging Technologies"; "Industry Trends"; "Product Innovation";
      "Software Engineering"; "AI Developments" ];
  post_templates :=
    [ "Sharing insights on {topic}: {content} This advancement is shaping the future of technology. #Tech #Innovation";
      "The latest in {topic}: {content} This development highlights the potential for growth in the industry. #Technology #Future";
      "A deep dive into {topic}: {content} This trend is driving significant progress. #TechTrends #Innovation";
      "Exploring advancements in {topic}: {content} These innovations are redefining the landscape. #SoftwareEngineering #Tech";
      "{topic} continues to evolve: {content} This progress underscores the impact of technology on our world. #AI #Innovation" ];
  output_dir := "/tmp/pending_posts";
  manual_review := true
|}.

Definition fallback_model : string := "t5-small".
Definition default_model : string := "google/flan-t5-large".

(** [not CONFIG['huggingface_api_key']]: unset, or set to the empty string. *)
Definition key_missing (w : World) : bool :=
  match huggingface_api_key (CONFIG w) with
  | None => true
  | Some k => PyStr.is_empty k
  end.

Definition api_key (w : World) : string :=
  match huggingface_api_key (CONFIG w) with
  | None => EmptyString
  | Some k => k
  end.

Definition generation_url (model : string) : string :=
  "https://api-inference.huggingface.co/models/" ++ model.

Definition prompt (topic : string) : string :=
  "Write a detailed, professional LinkedIn post (300-500 words) about " ++ topic ++ ". "
  ++ "Use a positive, informative tone, focus on one key insight or advancement, and align with a tech-savvy "
  ++ "personal brand. Avoid jargon, provide specific details, examples, or use cases, and do not include questions "
  ++ "or calls-to-action. Include relevant statistics, trends, or real-world applications to enhance depth.".

Definition follow_up_prompt (topic : string) : string :=
  "Continue the previous LinkedIn post about " ++ topic ++ ", adding 200-300 more words. "
  ++ "Maintain a positive, informative tone, provide additional details, examples, or applications, "
  ++ "and align with a tech-savvy personal brand. Avoid jargon and do not include questions or calls-to-action.".

Definition generation_parameters : GenerationParameters :=
  {| min_length := 300; max_length := 512; temperature := 7 # 10 |}.

(** The paragraph both [except] clauses return once the fallback model has
    failed too. *)
Definition placeholder (topic : string) : string :=
  "Exploring " ++ topic ++ " today! Recent advancements are driving significant progress in this field. "
  ++ "Innovations are enabling new applications, from streamlining processes to enhancing scalability. "
  ++ "For example, recent developments have led to a 20% improvement in processing efficiency in related systems. "
  ++ "This trend is poised to influence industries by improving operational workflows and fostering sustainable growth.".

(** The length the generated text is cut to, and the number of words below
    which a continuation is asked for. *)
Definition character_limit : nat := 3000.
Definition word_threshold : nat := 300.

(** [response.json()[0]['generated_text'].strip()] *)
Definition generated_text_of (response : Response) : Res string :=
  body <~ Py.response_json response ;;
  first <~ Py.getitem_0 body ;;
  field <~ Py.getitem first "generated_text" ;;
  Py.strip field.

(** The [try] block of [generate_content_with_huggingface]. *)
Definition generation_headers (w : World) : list (string * string) :=
  [ ("Authorization", "Bearer " ++ api_key w);
    ("Content-Type", "application/json") ].

Definition generation_attempt (topic model : string) : M string :=
  fun w =>
  (let hs := generation_headers w in
   let payload := Generation (prompt topic) generation_parameters in
   response <- Py.requests_post (generation_url model) payload hs ;;
   lift (Py.raise_for_status response) ;;;
   generated_text <- lift (generated_text_of response) ;;
   generated_text <-
     (if (length (PyStr.split generated_text) <? word_threshold)%nat then
        let payload := Generation (follow_up_prompt topic) generation_parameters in
        follow_up_response <- Py.requests_post (generation_url model) payload hs ;;
        lift (Py.raise_for_status follow_up_response) ;;;
        follow_up_text <- lift (generated_text_of follow_up_response) ;;
        ret (generated_text ++ " " ++ follow_up_text)
      else ret generated_text) ;;
   ret (PyStr.slice_to character_limit generated_text)) w.

(** The call the [except] clauses make is on the fallback model, and a call
    on the fallback model makes none: the rank of the model decreases. *)
Definition model_rank (model : string) : nat :=
  if String.eqb model fallback_model then 0%nat else 1%nat.

(** [generate_content_with_huggingface(topic, model)].  The two [except]
    clauses differ in what they log only. *)
Equations? generate_content_with_huggingface (topic model : string) (w : World)
  : Res string * World by wf (model_rank model) lt :=
generate_content_with_huggingface topic model w with key_missing w => {
  | true :=
      (Raise (HTTPException 500 "HUGGINGFACE_API_KEY is not configured."), w)
  | false with generation_attempt topic model w => {
    | (Return generated_text, w1) := (Return generated_text, w1)
    | (Raise (HTTPError _), w1) with string_dec model fallback_model => {
      | right _ := generate_content_with_huggingface topic fallback_model w1
      | left _ := (Return (placeholder topic), w1) }
    | (Raise _, w1) with string_dec model fallback_model => {
      | right _ := generate_content_with_huggingface topic fallback_model w1
      | left _ := (Return (placeholder topic), w1) } } }.
Proof.
  all: unfold model_rank; rewrite String.eqb_refl;
    destruct (String.eqb_spec model fallback_model); [contradiction | lia].
Qed.

(** [create_post()] *)
Definition create_post : M value :=
  fun w =>
  (topic <- Py.random_choice (content_topics (CONFIG w)) ;;
   content <- generate_content_with_huggingface topic default_model ;;
   template <- Py.random_choice (post_templates (CONFIG w)) ;;
   post_text <- lift (Py.format template [("topic", topic); ("content", content)]) ;;
   id <- Py.uuid4 ;;
   ret (VDict [ ("id", VStr id);
                ("text", VStr post_text);
                ("topic", VStr topic);
                ("created_at", VStr (now_isoformat w)) ])) w.

(** The path of the queue file of the day. *)
Definition queue_path (w : World) : string :=
  output_dir (CONFIG w) ++ "/" ++ "posts_" ++ today w ++ ".json".

(** [save_posts_for_review(posts)]: the path, or [None] when writing fails. *)
Definition save_posts_for_review (posts : list value) : M (option string) :=
  fun w =>
  (let file_path := queue_path w in
   try_except
     (Py.write_file file_path (Json.dumps (VList posts)) ;;;
      ret (Some file_path))
     (fun _ => ret None)) w.

(** [load_pending_posts()] *)
Definition load_pending_posts : M value :=
  fun w =>
  (let file_path := queue_path w in
   try_except
     (content <- Py.read_file file_path ;;
      match Json.loads content with
      | Some v => ret v
      | None => raise (OtherError "JSONDecodeError")
      end)
     (fun _ => ret (VList []))) w.

Definition publish_url : string := "https://api.linkedin.com/rest/posts".

(** [post_to_linkedin(post_text, access_token, author_urn)] *)
Definition post_to_linkedin (post_text : value) (access_token author_urn : string)
  : M value :=
  try_except
    (let hs := [ ("Authorization", "Bearer " ++ access_token);
                 ("Content-Type", "application/json");
                 ("X-Restli-Protocol-Version", "2.0.0");
                 ("LinkedIn-Version", "202508") ] in
     let payload :=
       Publication author_urn post_text "PUBLIC" "MAIN_FEED" [] [] "PUBLISHED" false in
     response <- Py.requests_post publish_url payload hs ;;
     lift (Py.raise_for_status response) ;;;
     let post_id := Py.headers_get (headers response) "x-restli-id" "Unknown" in
     ret (VDict [ ("status", VStr "success");
                  ("post_id", VStr post_id);
                  ("message", VStr "Post uploaded to LinkedIn") ]))
    (fun e =>
       match e with
       | HTTPError response =>
           raise (HTTPException (status_code response)
                    ("LinkedIn API error: " ++ text response))
       | _ => raise (HTTPException 500 ("Failed to post to LinkedIn: " ++ Py.str e))
       end).

(** [next((p for p in posts if p['id'] == post_id), None)] *)
Fixpoint find_post (posts : list value) (post_id : string) : Res (option value) :=
  match posts with
  | [] => Return None
  | p :: rest =>
      id <~ Py.getitem p "id" ;;
      if Py.eq_str id post_id then Return (Some p) else find_post rest post_id
  end.

(** The handler of [POST /upload-post]. *)
Definition upload_post (post_id access_token author_urn : string) : M value :=
  posts <- load_pending_posts ;;
  items <- lift (Py.iter posts) ;;
  found <- lift (find_post items post_id) ;;
  match found with
  | Some post =>
      if Py.truthy post then
        post_text <- lift (Py.getitem post "text") ;;
        result <- post_to_linkedin post_text access_token author_urn ;;
        message <- lift (Py.getitem result "message") ;;
        published_id <- lift (Py.getitem result "post_id") ;;
        ret (VDict [ ("message", message);
                     ("post_id", published_id);
                     ("original_post", post) ])
      else raise (HTTPException 404 "Post ID not found")
  | None => raise (HTTPException 404 "Post ID not found")
  end.

(** [get_pending_posts()], the handler of [GET /get-pending-posts]. *)
Definition get_pending_posts : M value :=
  posts <- load_pending_posts ;;
  ret (VDict [ ("message", VStr "Retrieved pending posts");
               ("posts", posts) ]).

(** [[create_post() for _ in range(n)]] *)
Fixpoint create_posts (n : nat) : M (list value) :=
  match n with
  | O => ret []
  | S n' =>
      post <- create_post ;;
      posts <- create_posts n' ;;
      ret (post :: posts)
  end.

(** ** The host of the endpoints

    What [generate_posts] and [post_to_zapier] reach besides the world: the
    webhook, whose calls are logged apart because their body has another
    shape, its address in the environment, and the creation of the output
    directory. *)

(** One call of the webhook:
    [requests.post(zapier_webhook, json={'text': text})]. *)
Record WebhookCall : Type := {
  webhook_url : string;
  webhook_text : value
}.

Record Host : Type := {
  world : World;
  ZAPIER_WEBHOOK : option string;               (* os.getenv('ZAPIER_WEBHOOK') *)
  webhook : list WebhookCall -> WebhookCall -> Outcome;
  relayed : list WebhookCall;                   (* webhook calls, oldest first *)
  makedirs : string -> option (string -> bool)  (* os.makedirs(dir, exist_ok=True):
                                                   [None] when it raises, else the
                                                   paths that can be written
                                                   afterwards *)
}.

Definition with_world (h : Host) (w : World) : Host :=
  {| world := w; ZAPIER_WEBHOOK := ZAPIER_WEBHOOK h; webhook := webhook h;
     relayed := relayed h; makedirs := makedirs h |}.

Definition with_relayed (h : Host) (l : list WebhookCall) : Host :=
  {| world := world h; ZAPIER_WEBHOOK := ZAPIER_WEBHOOK h; webhook := webhook h;
     relayed := l; makedirs := makedirs h |}.

Definition with_writable (w : World) (f : string -> bool) : World :=
  {| HUGGINGFACE_API_KEY := HUGGINGFACE_API_KEY w; service := service w;
     sent := sent w; files := files w; writable := f; today := today w;
     now_isoformat := now_isoformat w; entropy := entropy w; draws := draws w;
     uuid_of := uuid_of w |}.

(** Computations on the host. *)
Definition HM (A : Type) : Type := Host -> Res A * Host.

Definition host_ret {A} (a : A) : HM A := fun h => (Return a, h).

Definition host_bind {A B} (m : HM A) (k : A -> HM B) : HM B :=
  fun h =>
    match m h with
    | (Return a, h') => k a h'
    | (Raise e, h') => (Raise e, h')
    end.

Definition host_try {A} (m : HM A) (handler : Exn -> HM A) : HM A :=
  fun h =>
    match m h with
    | (Return a, h') => (Return a, h')
    | (Raise e, h') => handler e h'
    end.

(** A step that reads no state. *)
Definition host_lift {A} (r : Res A) : HM A := fun h => (r, h).

(** A computation on the world, run in the host. *)
Definition in_world {A} (m : M A) : HM A :=
  fun h =>
    match m (world h) with
    | (r, w') => (r, with_world h w')
    end.

Notation "x <<- m ;; k" := (host_bind m (fun x => k))
  (at level 61, m at next level, right associativity).

(** [requests.post(url, json={'text': text})] *)
Definition webhook_post (u : string) (body : value) : HM Response :=
  fun h =>
    let call := {| webhook_url := u; webhook_text := body |} in
    let h' := with_relayed h (relayed h ++ [call]) in
    match webhook h (relayed h) call with
    | Answered r => (Return r, h')
    | Broken msg => (Raise (OtherError msg), h')
    end.

(** [ensure_output_dir()] *)
Definition ensure_output_dir : HM unit :=
  fun h =>
    match makedirs h (output_dir (CONFIG (world h))) with
    | Some can_write => (Return tt, with_world h (with_writable (world h) can_write))
    | None => (Raise (OtherError "OSError"), h)
    end.

(** [post_to_zapier(post)]: [None], whatever happens. *)
Definition post_to_zapier (post : value) : HM unit :=
  host_try
    (fun h =>
       match ZAPIER_WEBHOOK h with
       | None => (Return tt, h)
       | Some zapier_webhook =>
           if PyStr.is_empty zapier_webhook then (Return tt, h)
           else
             (post_text <<- host_lift (Py.getitem post "text") ;;
              response <<- webhook_post zapier_webhook post_text ;;
              _ <<- host_lift (Py.raise_for_status response) ;;
              host_ret tt) h
       end)
    (fun _ => host_ret tt).

(** [for post in posts: post_to_zapier(post)] *)
Fixpoint relay_all (posts : list value) : HM unit :=
  match posts with
  | [] => host_ret tt
  | post :: rest => _ <<- post_to_zapier post ;; relay_all rest
  end.

(** [file_path or "Error saving file"] *)
Definition path_or_error (file_path : option string) : string :=
  match file_path with
  | Some path => if PyStr.is_empty path then "Error saving file" else path
  | None => "Error saving file"
  end.

(** [generate_posts()], the handler of [POST /generate-posts]. *)
Definition generate_posts : HM value :=
  fun h =>
  (_ <<- ensure_output_dir ;;
   posts <<- in_world (create_posts (post_count_per_day (CONFIG (world h)))) ;;
   if manual_review (CONFIG (world h)) then
     file_path <<- in_world (save_posts_for_review posts) ;;
     host_ret (VDict [ ("message", VStr "Posts generated and saved for review");
                       ("posts", VList posts);
                       ("file_path", VStr (path_or_error file_path)) ])
   else
     _ <<- relay_all posts ;;
     host_ret (VDict [ ("message", VStr "Posts generated and sent to Zapier");
                       ("posts", VList posts) ])) h.

(** ** Vocabulary of the properties *)

(** The request a generation call sends for a given prompt. *)
Definition generation_request (inputs model : string) (w : World) : Request :=
  {| url := generation_url model;
     json := Generation inputs generation_parameters;
     request_headers := generation_headers w |}.

Definition first_request (topic model : string) (w : World) : Request :=
  generation_request (prompt topic) model w.

Definition follow_up_request (topic model : string) (w : World) : Request :=
  generation_request (follow_up_prompt topic) model w.

(** The world after the requests [l] have been sent. *)
Definition sending (w : World) (l : list Request) : World :=
  with_sent w (sent w ++ l).

(** A response the generator reads the text [t] from: [raise_for_status]
    lets it through and the body holds a generated text. *)
Definition yields (r : Response) (t : string) : Prop :=
  Py.is_error_status r = false /\ generated_text_of r = Return t.

Definition word_count (t : string) : nat := length (PyStr.split t).

(** One run of the generator's logic on the fallback model, from the world
    [w1]: its text, or the placeholder paragraph when it fails. *)
Definition fallback_run (topic : string) : M string :=
  fun w1 =>
    match generation_attempt topic fallback_model w1 with
    | (Return generated_text, w2) => (Return generated_text, w2)
    | (Raise _, w2) => (Return (placeholder topic), w2)
    end.

(** The call went on to exactly one run on the fallback model, after the
    attempt on [model]. *)
Definition retried_on_fallback (topic model : string) (w : World) : Prop :=
  generate_content_with_huggingface topic model w
  = fallback_run topic (snd (generation_attempt topic model w)).

(** The first request of the call met a transport error or a response
    whose status satisfies [bad]. *)
Definition first_call_fails (bad : Z -> Prop) (topic model : string) (w : World)
  : Prop :=
  match service w (sent w) (first_request topic model w) with
  | Broken _ => True
  | Answered r => bad (status_code r)
  end.

Definition non_2xx (status : Z) : Prop := ~ (200 <= status < 300).
Definition is_4xx_5xx (status : Z) : Prop := 400 <= status < 600.

(** The request [post_to_linkedin] sends. *)
Definition publish_request (post_text : value) (access_token author_urn : string)
  : Request :=
  {| url := publish_url;
     json := Publication author_urn post_text "PUBLIC" "MAIN_FEED" [] []
               "PUBLISHED" false;
     request_headers :=
       [ ("Authorization", "Bearer " ++ access_token);
         ("Content-Type", "application/json");
         ("X-Restli-Protocol-Version", "2.0.0");
         ("LinkedIn-Version", "202508") ] |}.

(** The dictionary [post_to_linkedin] returns for the identifier [post_id]. *)
Definition success_result (post_id : string) : value :=
  VDict [ ("status", VStr "success");
          ("post_id", VStr post_id);
          ("message", VStr "Post uploaded to LinkedIn") ].

(** The error that carries the status and the body of a response. *)
Definition upstream_error (r : Response) : Exn :=
  HTTPException (status_code r) ("LinkedIn API error: " ++ text r).

(** The publisher's claim, as the specification words it: success on a 2xx
    answer, the upstream error on any other. *)
Definition publishes_or_raises_on_non_2xx (post_text : value)
    (access_token author_urn : string) (w : World) (r : Response) : Prop :=
  let request := publish_request post_text access_token author_urn in
  service w (sent w) request = Answered r ->
  (200 <= status_code r < 300 ->
     post_to_linkedin post_text access_token author_urn w
     = (Return (success_result (Py.headers_get (headers r) "x-restli-id" "Unknown")),
        sending w [request]))
  /\ (non_2xx (status_code r) ->
       post_to_linkedin post_text access_token author_urn w
       = (Raise (upstream_error r), sending w [request])).

(** A post of the queue whose identifier is not [post_id]. *)
Definition has_other_id (post_id : string) (p : value) : Prop :=
  exists d v, p = VDict d /\ Json.dict_get d "id" = Some v /\ v <> VStr post_id.

(** No header of the response is named [name], letter case aside. *)
Definition header_absent (name : string) (r : Response) : Prop :=
  Forall (fun kv => PyStr.lower (fst kv) <> PyStr.lower name) (headers r).

(** The generator's claims, as the specification words them. *)

(** Whatever fails the first call, a status outside 200..299 included, the
    call goes on to one run on the fallback model. *)
Definition retries_on_any_non_2xx (topic model : string) (w : World) : Prop :=
  key_missing w = false ->
  model <> fallback_model ->
  first_call_fails non_2xx topic model w ->
  retried_on_fallback topic model w.

(** The returned text has at most 3000 characters. *)
Definition returns_at_most_3000 (topic model : string) (w : World) : Prop :=
  key_missing w = false ->
  exists s w', generate_content_with_huggingface topic model w = (Return s, w')
    /\ (String.length s <= 3000)%nat.

(** ** Sample worlds *)

Definition world_of (key : option string)
    (svc : list Request -> Request -> Outcome) (fs : string -> File) : World :=
  {| HUGGINGFACE_API_KEY := key; service := svc; sent := [];
     files := fs; writable := fun _ => true; today := "20250801";
     now_isoformat := "2025-08-01T09:30:00.000000";
     entropy := fun _ => 0%nat; draws := 0;
     uuid_of := fun _ => "0f8fad5b-d9cb-469f-a165-70867728950e" |}.

Definition no_files : string -> File := fun _ => Missing.

(** The body the generation service answers with for the text [t]. *)
Definition generation_body (t : string) : string :=
  Json.dumps (VList [VDict [("generated_text", VStr t)]]).

Definition answer (status : Z) (hs : list (string * string)) (body : string)
  : Outcome :=
  Answered {| status_code := status; headers := hs; text := body |}.

(** Every request meets a transport error. *)
Definition world_down : World :=
  world_of (Some "hf_key") (fun _ _ => Broken "ConnectionError") no_files.

(** 300 words, 1499 characters once stripped. *)
Definition text_300_words : string := PyStr.repeat "word " 300.

(** The primary model answers 304 with a body that holds 300 words; any
    other request meets a transport error. *)
Definition world_304 : World :=
  world_of (Some "hf_key")
    (fun _ request =>
       if String.eqb (url request) (generation_url default_model)
       then answer 304 [] (generation_body text_300_words)
       else Broken "ConnectionError")
    no_files.

(** The first request is answered with a short text, the second with a
    continuation. *)
Definition world_short : World :=
  world_of (Some "hf_key")
    (fun history _ =>
       match history with
       | [] => answer 200 [] (generation_body "AI is changing software.")
       | _ => answer 200 [] (generation_body " Teams ship faster. ")
       end)
    no_files.

(** No key in the environment. *)
Definition world_no_key : World :=
  world_of None (fun _ _ => Broken "ConnectionError") no_files.

(** The platform answers every request with [outcome]. *)
Definition world_platform (outcome : Outcome) (fs : string -> File) : World :=
  world_of (Some "hf_key") (fun _ _ => outcome) fs.

(** The generation service answers every request with 400 words of 11
    characters. *)
Definition world_long : World :=
  world_of (Some "hf_key")
    (fun _ _ => answer 200 [] (generation_body (PyStr.repeat "innovation " 400)))
    no_files.

Definition sample_post (id body : string) : value :=
  VDict [ ("id", VStr id); ("text", VStr body);
          ("topic", VStr "AI Developments");
          ("created_at", VStr "2025-08-01T09:30:00.000000") ].

Definition sample_posts : list value :=
  [ sample_post "post-1" "Sharing insights on AI Developments: first.";
    sample_post "post-2" "The latest in AI Developments: second." ].

(** The queue file of the day holds [content]. *)
Definition files_with_queue (content : string) : string -> File :=
  fun path =>
    if String.eqb path "/tmp/pending_posts/posts_20250801.json"
    then Data content else Missing.

(** A topic of 2597 characters. *)
Definition long_topic : string := PyStr.repeat "a" 2597.

(** ** Vocabulary of the further properties *)

(** What a request of a generation call on [model] looks like: it goes to
    the model or to the fallback model, with the key of the configuration and
    the fixed parameters. *)
Definition generation_request_for (model : string) (w : World) (r : Request)
  : Prop :=
  (url r = generation_url model \/ url r = generation_url fallback_model)
  /\ request_headers r = generation_headers w
  /\ exists inputs, json r = Generation inputs generation_parameters.

(** The follow-up request of a call met a transport error, a 4xx/5xx answer
    or an answer no text can be read from. *)
Definition follow_up_fails (topic model : string) (w : World) : Prop :=
  match service w (sent w ++ [first_request topic model w])
          (follow_up_request topic model w) with
  | Broken _ => True
  | Answered r =>
      Py.is_error_status r = true \/ exists e, generated_text_of r = Raise e
  end.

(** A post of the queue whose identifier is [post_id]. *)
Definition has_id (post_id : string) (p : value) : Prop :=
  exists d, p = VDict d /\ Json.dict_get d "id" = Some (VStr post_id).

(** What [upload_post] answers with after a publication. *)
Definition upload_result (published_id : string) (post : value) : value :=
  VDict [ ("message", VStr "Post uploaded to LinkedIn");
          ("post_id", VStr published_id);
          ("original_post", post) ].

(** ** More sample worlds *)

(** Nothing can be written. *)
Definition world_read_only : World :=
  with_writable (world_platform (answer 201 [] "") no_files) (fun _ => false).

(** The queue of the day holds the two sample posts; the platform answers
    with [outcome]. *)
Definition world_queued (outcome : Outcome) : World :=
  world_platform outcome (files_with_queue (Json.dumps (VList sample_posts))).

(** The first request is answered with a short text, the follow-up meets a
    transport error, and so does every later request. *)
Definition world_cut : World :=
  world_of (Some "hf_key")
    (fun history _ =>
       match history with
       | [] => answer 200 [] (generation_body "AI is changing software.")
       | _ => Broken "ReadTimeout"
       end)
    no_files.

(** The first request is answered 200 with a body that is not JSON; every
    later request meets a transport error. *)
Definition world_garbled : World :=
  world_of (Some "hf_key")
    (fun history _ =>
       match history with
       | [] => answer 200 [] "Model is loading"
       | _ => Broken "ReadTimeout"
       end)
    no_files.

(** A post as [create_post] makes it. *)
Definition composed_post (w : World) (p : value) : Prop :=
  exists id body topic,
    p = VDict [ ("id", VStr id); ("text", VStr body); ("topic", VStr topic);
                ("created_at", VStr (now_isoformat w)) ]
    /\ In topic (content_topics (CONFIG w)).

(** The answer of [generate_posts] in manual review. *)
Definition generation_report (posts : list value) (file_path : string) : value :=
  VDict [ ("message", VStr "Posts generated and saved for review");
          ("posts", VList posts);
          ("file_path", VStr file_path) ].

(** ** Sample hosts *)

Definition host_of (w : World) (address : option string) (outcome : Outcome)
    (dirs : string -> option (string -> bool)) : Host :=
  {| world := w; ZAPIER_WEBHOOK := address; webhook := fun _ _ => outcome;
     relayed := []; makedirs := dirs |}.

(** The directory can be made and everything written. *)
Definition dirs_ok : string -> option (string -> bool) :=
  fun _ => Some (fun _ => true).

(** The directory can be made and nothing written. *)
Definition dirs_read_only : string -> option (string -> bool) :=
  fun _ => Some (fun _ => false).

(** The directory cannot be made. *)
Definition dirs_denied : string -> option (string -> bool) := fun _ => None.

(** * Properties *)

(** ** Strings *)

Arguments PyStr.slice_to : simpl never.

Lemma length_append (a b : string) :
  String.length (a ++ b) = (String.length a + String.length b)%nat.
Proof. induction a as [|c a IH]; simpl; [reflexivity | now rewrite IH]. Qed.

Lemma slice_to_length (n : nat) (s : string) :
  (String.length (PyStr.slice_to n s) <= n)%nat.
Proof.
  revert s; induction n as [|n IH]; intros [|c s]; simpl; try lia.
  specialize (IH s); lia.
Qed.

Lemma placeholder_length (topic : string) :
  String.length (placeholder topic) = (String.length topic + 404)%nat.
Proof.
  unfold placeholder. rewrite !length_append. simpl. lia.
Qed.

(** ** The [json] round trip *)

Import Json.

Lemma append_assoc (a b c : string) : (a ++ b) ++ c = a ++ (b ++ c).
Proof. induction a as [|x a IH]; simpl; [reflexivity | now rewrite IH]. Qed.

Lemma append_nil_r (a : string) : a ++ "" = a.
Proof. induction a as [|x a IH]; simpl; [reflexivity | now rewrite IH]. Qed.

Lemma value_induction (P : value -> Prop) :
  P VNone -> (forall b, P (VBool b)) -> (forall s, P (VStr s)) ->
  (forall l, Forall P l -> P (VList l)) ->
  (forall d, Forall (fun kv => P (snd kv)) d -> P (VDict d)) ->
  forall v, P v.
Proof.
  intros HN HB HS HL HD.
  fix rec 1. intros [| b | s | l | d].
  - exact HN.
  - apply HB.
  - apply HS.
  - apply HL. induction l as [|x l IH]; constructor; [apply rec | exact IH].
  - apply HD. induction d as [|[k x] d IH]; constructor; [apply rec | exact IH].
Qed.

Lemma skip_ws_indent (n : nat) (s : string) :
  skip_ws (PyStr.repeat "  " n ++ s) = skip_ws s.
Proof. induction n as [|n IH]; simpl; [reflexivity | exact IH]. Qed.

Lemma skip_ws_newline_indent (n : nat) (s : string) :
  skip_ws (newline_indent n ++ s) = skip_ws s.
Proof. unfold newline_indent, newline. simpl. apply skip_ws_indent. Qed.

Lemma encode_head (level : nat) (v : value) :
  exists c s, encode level v = String c s /\ value_head c.
Proof.
  unfold value_head.
  destruct v as [|[|]|s|[|x l]|[|kx d]]; simpl; eexists; eexists;
    (split; [reflexivity|]); tauto.
Qed.

Lemma scan_string_char (c : ascii) (r : string) :
  scan_string (escape_char c ++ r) =
  match scan_string r with
  | Some (t, rest) => Some (String c t, rest)
  | None => None
  end.
Proof.
  destruct c as [b0 b1 b2 b3 b4 b5 b6 b7].
  destruct b0, b1, b2, b3, b4, b5, b6, b7; reflexivity.
Qed.

Lemma scan_string_escape (s rest : string) :
  scan_string (escape s ++ quote ++ rest) = Some (s, rest).
Proof.
  induction s as [|c s IH]; [reflexivity|].
  cbn [escape]. rewrite append_assoc, scan_string_char, IH. reflexivity.
Qed.

Lemma skip_ws_head (c : ascii) (s : string) :
  value_head c -> skip_ws (String c s) = String c s.
Proof. unfold value_head. intros [->|[->|[->|[->|[->| ->]]]]]; reflexivity. Qed.

Lemma concat_more (sep a b : string) (l : list string) :
  String.concat sep (a :: b :: l) = a ++ sep ++ String.concat sep (b :: l).
Proof. reflexivity. Qed.

Lemma scan_value_open_list (f : nat) (s1 t : string) :
  skip_ws s1 = t ->
  (exists c s', t = String c s' /\ value_head c) ->
  scan_value (S f) (String "[" s1) =
  match scan_items f t with
  | Some (l, r) => Some (VList l, r)
  | None => None
  end.
Proof.
  intros E (c & s' & -> & H). cbn [scan_value]. simpl. rewrite E.
  destruct H as [->|[->|[->|[->|[->| ->]]]]]; reflexivity.
Qed.

Lemma scan_value_open_dict (f : nat) (s1 t : string) :
  skip_ws s1 = t ->
  (exists s', t = String "034" s') ->
  scan_value (S f) (String "{" s1) =
  match scan_members f t with
  | Some (ps, r) => Some (VDict (dict_of_pairs ps), r)
  | None => None
  end.
Proof. intros E (s' & ->). cbn [scan_value]. simpl. rewrite E. reflexivity. Qed.

Lemma distinct_NoDup (l : list string) : distinct l = true -> NoDup l.
Proof.
  induction l as [|k ks IH]; simpl; intros H; constructor.
  - apply andb_true_iff in H. destruct H as [H _].
    apply negb_true_iff in H. intros Hin.
    assert (existsb (String.eqb k) ks = true)
      by (apply existsb_exists; exists k; split; [exact Hin | apply String.eqb_refl]).
    congruence.
  - apply IH. apply andb_true_iff in H. tauto.
Qed.

Lemma dict_set_fresh (d : list (string * value)) (k : string) (v : value) :
  ~ In k (map fst d) -> dict_set d k v = (d ++ [(k, v)])%list.
Proof.
  induction d as [|[k' v'] d IH]; simpl; intros H; [reflexivity|].
  destruct (String.eqb_spec k' k); [tauto|]. rewrite IH by tauto. reflexivity.
Qed.

Lemma dict_of_pairs_from (ps acc : list (string * value)) :
  NoDup (map fst (acc ++ ps)%list) ->
  fold_left (fun d kv => dict_set d (fst kv) (snd kv)) ps acc = (acc ++ ps)%list.
Proof.
  revert acc; induction ps as [|[k v] ps IH]; intros acc H; simpl.
  - now rewrite app_nil_r.
  - rewrite dict_set_fresh.
    + rewrite IH; rewrite <- List.app_assoc; [reflexivity | exact H].
    + rewrite map_app in H. simpl in H. apply NoDup_remove_2 in H.
      intros Hin. apply H. apply in_or_app. now left.
Qed.

Lemma dict_of_pairs_distinct (d : list (string * value)) :
  distinct (map fst d) = true -> dict_of_pairs d = d.
Proof.
  intros H. unfold dict_of_pairs. rewrite dict_of_pairs_from; [reflexivity|].
  apply distinct_NoDup. exact H.
Qed.

Lemma skip_ws_encode (level : nat) (x : value) (t : string) :
  skip_ws (encode level x ++ t) = encode level x ++ t.
Proof.
  destruct (encode_head level x) as (c & s' & -> & H). apply skip_ws_head, H.
Qed.

Lemma concat_head (sep a : string) (l : list string) :
  exists t, String.concat sep (a :: l) = a ++ t.
Proof.
  destruct l as [|b l].
  - exists "". simpl. now rewrite append_nil_r.
  - eexists. apply concat_more.
Qed.

Lemma newline_indent_length (level : nat) :
  (1 <= String.length (newline_indent level))%nat.
Proof. unfold newline_indent. simpl. lia. Qed.

Lemma item_separator_length (level : nat) :
  (1 <= String.length (item_separator level))%nat.
Proof. unfold item_separator. simpl. lia. Qed.

Lemma scan_items_encode (level : nat) (l : list value) :
  Forall scans l -> forallb faithful l = true -> l <> [] ->
  forall rest f,
    (String.length (String.concat (item_separator (S level))
                      (map (encode (S level)) l)) + 1 < f)%nat ->
    scan_items f (String.concat (item_separator (S level))
                    (map (encode (S level)) l)
                  ++ newline_indent level ++ "]" ++ rest)
    = Some (l, rest).
Proof.
  induction l as [|x xs IH]; intros HF Hfa Hne rest f Hf; [congruence|].
  inversion HF as [|? ? Hx Hxs]; subst.
  simpl in Hfa. apply andb_true_iff in Hfa. destruct Hfa as [Fx Fxs].
  destruct f as [|f]; [lia|]. cbn [scan_items].
  destruct xs as [|y ys].
  - cbn [map String.concat] in *.
    rewrite (Hx Fx) by lia.
    rewrite skip_ws_newline_indent. reflexivity.
  - change (map (encode (S level)) (x :: y :: ys))
      with (encode (S level) x :: encode (S level) y :: map (encode (S level)) ys) in *.
    rewrite concat_more in *.
    pose proof (item_separator_length (S level)) as Hsep.
    rewrite !length_append in Hf.
    rewrite append_assoc. rewrite (Hx Fx) by lia.
    unfold item_separator at 1. rewrite !append_assoc. cbn [append].
    change (skip_ws (String "," ?t)) with (String "," t).
    cbv beta iota. rewrite skip_ws_newline_indent.
    destruct (concat_head (item_separator (S level)) (encode (S level) y)
                (map (encode (S level)) ys)) as [t E].
    rewrite E at 1. rewrite append_assoc, skip_ws_encode, <- append_assoc, <- E.
    change (encode (S level) y :: map (encode (S level)) ys)
      with (map (encode (S level)) (y :: ys)) in *.
    change (String "]" rest) with ("]" ++ rest).
    rewrite IH; [reflexivity | assumption | assumption | discriminate | lia].
Qed.

Lemma member_length (level : nat) (kv : string * value) :
  (String.length (encode level (snd kv)) + 4 <= String.length (member level kv))%nat.
Proof.
  unfold member, encode_string. rewrite !length_append. simpl. lia.
Qed.

Lemma scan_member (level : nat) (kv : string * value) (rest : string) (f : nat) :
  scans (snd kv) -> faithful (snd kv) = true ->
  (String.length (member level kv) < S f)%nat ->
  scan_members (S f) (member level kv ++ rest) =
  match skip_ws rest with
  | String "," r3 =>
      match scan_members f (skip_ws r3) with
      | Some (ps, r4) => Some (kv :: ps, r4)
      | None => None
      end
  | String "}" r3 => Some ([kv], r3)
  | _ => None
  end.
Proof.
  destruct kv as [k x]. intros Hx Fx Hf. cbn [fst snd] in *.
  pose proof (member_length level (k, x)) as Hm. cbn [snd] in Hm.
  unfold member, encode_string. cbn [fst snd].
  rewrite !append_assoc. unfold quote at 1. cbn [append scan_members].
  rewrite scan_string_escape.
  change (skip_ws (String ":" ?t)) with (String ":" t). cbv beta iota.
  change (skip_ws (String " " ?t)) with (skip_ws t).
  rewrite skip_ws_encode. rewrite (Hx Fx) by lia. reflexivity.
Qed.

Lemma skip_ws_member (level : nat) (kv : string * value) (t : string) :
  skip_ws (member level kv ++ t) = member level kv ++ t.
Proof. reflexivity. Qed.

Lemma scan_members_encode (level : nat) (d : list (string * value)) :
  Forall (fun kv => scans (snd kv)) d ->
  forallb (fun kv => faithful (snd kv)) d = true -> d <> [] ->
  forall rest f,
    (String.length (String.concat (item_separator (S level))
                      (map (member (S level)) d)) + 1 < f)%nat ->
    scan_members f (String.concat (item_separator (S level))
                      (map (member (S level)) d)
                    ++ newline_indent level ++ "}" ++ rest)
    = Some (d, rest).
Proof.
  induction d as [|x xs IH]; intros HF Hfa Hne rest f Hf; [congruence|].
  inversion HF as [|? ? Hx Hxs]; subst.
  simpl in Hfa. apply andb_true_iff in Hfa. destruct Hfa as [Fx Fxs].
  destruct f as [|f]; [lia|].
  destruct xs as [|y ys].
  - cbn [map String.concat] in *.
    rewrite scan_member by (assumption || lia).
    rewrite skip_ws_newline_indent. reflexivity.
  - change (map (member (S level)) (x :: y :: ys))
      with (member (S level) x :: member (S level) y :: map (member (S level)) ys) in *.
    rewrite concat_more in *.
    pose proof (item_separator_length (S level)) as Hsep.
    rewrite !length_append in Hf.
    rewrite append_assoc. rewrite scan_member by (assumption || lia).
    unfold item_separator at 1. rewrite !append_assoc. cbn [append].
    change (skip_ws (String "," ?t)) with (String "," t).
    cbv beta iota. rewrite skip_ws_newline_indent.
    destruct (concat_head (item_separator (S level)) (member (S level) y)
                (map (member (S level)) ys)) as [t E].
    rewrite E at 1. rewrite append_assoc, skip_ws_member, <- append_assoc, <- E.
    change (member (S level) y :: map (member (S level)) ys)
      with (map (member (S level)) (y :: ys)) in *.
    change (String "}" rest) with ("}" ++ rest).
    rewrite IH; [reflexivity | assumption | assumption | discriminate | lia].
Qed.

Lemma encode_list (level : nat) (x : value) (xs : list value) :
  encode level (VList (x :: xs))
  = "[" ++ newline_indent (S level)
    ++ String.concat (item_separator (S level)) (map (encode (S level)) (x :: xs))
    ++ newline_indent level ++ "]".
Proof. reflexivity. Qed.

Lemma encode_dict (level : nat) (x : string * value) (xs : list (string * value)) :
  encode level (VDict (x :: xs))
  = "{" ++ newline_indent (S level)
    ++ String.concat (item_separator (S level)) (map (member (S level)) (x :: xs))
    ++ newline_indent level ++ "}".
Proof. reflexivity. Qed.

Lemma scan_encode (v : value) : scans v.
Proof.
  induction v as [|b|s|l IH|d IH] using value_induction;
    intros Fv level rest fuel Hf.
  - destruct fuel as [|f]; [lia|]. reflexivity.
  - destruct fuel as [|f]; [lia|]. destruct b; reflexivity.
  - destruct fuel as [|f]; [lia|].
    cbn [encode]. unfold encode_string, quote at 1.
    rewrite !append_assoc. cbn [append scan_value].
    change (nat_of_ascii "034") with 34%nat. cbn [Nat.eqb].
    rewrite scan_string_escape. reflexivity.
  - destruct fuel as [|f]; [lia|].
    destruct l as [|x xs]; [reflexivity|].
    rewrite encode_list in *. rewrite !length_append in Hf.
    rewrite !append_assoc. cbn [append].
    destruct (concat_head (item_separator (S level)) (encode (S level) x)
                (map (encode (S level)) xs)) as [t E].
    change (encode (S level) x :: map (encode (S level)) xs)
      with (map (encode (S level)) (x :: xs)) in E.
    erewrite scan_value_open_list.
    + change (String "]" rest) with ("]" ++ rest).
      rewrite (scan_items_encode level); [reflexivity | exact IH | exact Fv | discriminate|].
      pose proof (newline_indent_length level).
      pose proof (newline_indent_length (S level)). lia.
    + rewrite skip_ws_newline_indent. rewrite E at 1.
      rewrite append_assoc, skip_ws_encode, <- append_assoc, <- E. reflexivity.
    + rewrite E. destruct (encode_head (S level) x) as (c & s' & -> & H).
      exists c. eexists. split; [reflexivity | exact H].
  - destruct fuel as [|f]; [lia|].
    destruct d as [|x xs]; [reflexivity|].
    cbn [faithful] in Fv. apply andb_true_iff in Fv. destruct Fv as [Fk Fv].
    rewrite encode_dict in *. rewrite !length_append in Hf.
    rewrite !append_assoc. cbn [append].
    erewrite scan_value_open_dict.
    + change (String "}" rest) with ("}" ++ rest).
      rewrite (scan_members_encode level);
        [rewrite dict_of_pairs_distinct by exact Fk; reflexivity
        | exact IH | exact Fv | discriminate |].
      pose proof (newline_indent_length level).
      pose proof (newline_indent_length (S level)). lia.
    + rewrite skip_ws_newline_indent.
      destruct (concat_head (item_separator (S level)) (member (S level) x)
                  (map (member (S level)) xs)) as [t E].
      change (member (S level) x :: map (member (S level)) xs)
        with (map (member (S level)) (x :: xs)) in E.
      rewrite E at 1.
      rewrite append_assoc, skip_ws_member, <- append_assoc, <- E. reflexivity.
    + destruct (concat_head (item_separator (S level)) (member (S level) x)
                  (map (member (S level)) xs)) as [t E].
      change (member (S level) x :: map (member (S level)) xs)
        with (map (member (S level)) (x :: xs)) in E.
      rewrite E. eexists. reflexivity.
Qed.

(** [json.loads(json.dumps(v, indent=2)) == v] *)
Lemma loads_dumps (v : value) :
  faithful v = true -> loads (dumps v) = Some v.
Proof.
  intros Fv. unfold loads, dumps.
  rewrite <- (append_nil_r (encode 0 v)) at 2.
  rewrite skip_ws_encode.
  rewrite (scan_encode v Fv 0%nat "" (S (String.length (encode 0 v)))) by lia.
  reflexivity.
Qed.

(** ** The generator *)

Lemma generate_unfold (topic model : string) (w : World) :
  generate_content_with_huggingface topic model w =
  if key_missing w
  then (Raise (HTTPException 500 "HUGGINGFACE_API_KEY is not configured."), w)
  else match generation_attempt topic model w with
       | (Return generated_text, w1) => (Return generated_text, w1)
       | (Raise _, w1) =>
           if string_dec model fallback_model
           then (Return (placeholder topic), w1)
           else generate_content_with_huggingface topic fallback_model w1
       end.
Proof.
  rewrite generate_content_with_huggingface_equation_1.
  destruct (key_missing w); cbn; [reflexivity|].
  destruct (generation_attempt topic model w) as [[t|e] w1]; cbn; [reflexivity|].
  destruct e; cbn; destruct (string_dec model fallback_model); cbn; reflexivity.
Qed.

(** The attempt, one service outcome at a time. *)
Lemma generation_attempt_cases (topic model : string) (w : World) :
  generation_attempt topic model w =
  let req1 := first_request topic model w in
  let req2 := follow_up_request topic model w in
  match service w (sent w) req1 with
  | Broken msg => (Raise (OtherError msg), sending w [req1])
  | Answered r1 =>
      if Py.is_error_status r1 then (Raise (HTTPError r1), sending w [req1])
      else
        match generated_text_of r1 with
        | Raise e => (Raise e, sending w [req1])
        | Return t1 =>
            if (word_count t1 <? word_threshold)%nat then
              match service w (sent w ++ [req1]) req2 with
              | Broken msg => (Raise (OtherError msg), sending w [req1; req2])
              | Answered r2 =>
                  if Py.is_error_status r2
                  then (Raise (HTTPError r2), sending w [req1; req2])
                  else
                    match generated_text_of r2 with
                    | Raise e => (Raise e, sending w [req1; req2])
                    | Return t2 =>
                        (Return (PyStr.slice_to character_limit (t1 ++ " " ++ t2)),
                         sending w [req1; req2])
                    end
              end
            else (Return (PyStr.slice_to character_limit t1), sending w [req1])
        end
  end.
Proof.
  unfold generation_attempt, bind, Py.requests_post, lift, ret, sending,
    first_request, follow_up_request, generation_request, word_count,
    Py.raise_for_status.
  cbn [service sent with_sent].
  destruct (service w (sent w) _) as [r1|msg]; [|reflexivity].
  destruct (Py.is_error_status r1); [reflexivity|].
  destruct (generated_text_of r1) as [t1|e]; [|reflexivity].
  destruct (length (PyStr.split t1) <? word_threshold)%nat; [|reflexivity].
  cbn [service sent with_sent]. rewrite <- app_assoc; cbn [app].
  destruct (service w _ _) as [r2|msg]; [|reflexivity].
  destruct (Py.is_error_status r2); [reflexivity|].
  destruct (generated_text_of r2) as [t2|e]; reflexivity.
Qed.

Lemma attempt_only_sends (topic model : string) (w : World) :
  exists l, snd (generation_attempt topic model w) = sending w l.
Proof.
  rewrite generation_attempt_cases; cbv zeta.
  destruct (service w (sent w) _) as [r1|msg]; [|eexists; reflexivity].
  destruct (Py.is_error_status r1); [eexists; reflexivity|].
  destruct (generated_text_of r1) as [t1|e]; [|eexists; reflexivity].
  destruct (word_count t1 <? word_threshold)%nat; [|eexists; reflexivity].
  destruct (service w _ _) as [r2|msg]; [|eexists; reflexivity].
  destruct (Py.is_error_status r2); [eexists; reflexivity|].
  destruct (generated_text_of r2) as [t2|e]; eexists; reflexivity.
Qed.

Lemma attempt_keeps_key (topic model : string) (w : World) :
  key_missing (snd (generation_attempt topic model w)) = key_missing w.
Proof.
  destruct (attempt_only_sends topic model w) as [l ->]. reflexivity.
Qed.

Lemma attempt_text_length (topic model : string) (w w1 : World) (t : string) :
  generation_attempt topic model w = (Return t, w1) ->
  (String.length t <= 3000)%nat.
Proof.
  rewrite generation_attempt_cases; cbv zeta.
  destruct (service w (sent w) _) as [r1|msg]; [|discriminate].
  destruct (Py.is_error_status r1); [discriminate|].
  destruct (generated_text_of r1) as [t1|e]; [|discriminate].
  destruct (word_count t1 <? word_threshold)%nat.
  - destruct (service w _ _) as [r2|msg]; [|discriminate].
    destruct (Py.is_error_status r2); [discriminate|].
    destruct (generated_text_of r2) as [t2|e]; [|discriminate].
    intros H; injection H as <- _. apply slice_to_length.
  - intros H; injection H as <- _. apply slice_to_length.
Qed.

(** With the key set, a call on the fallback model is one attempt, then the
    placeholder. *)
Lemma generate_on_fallback (topic : string) (w : World) :
  key_missing w = false ->
  generate_content_with_huggingface topic fallback_model w = fallback_run topic w.
Proof.
  intros Hkey. rewrite generate_unfold, Hkey. unfold fallback_run.
  destruct (generation_attempt topic fallback_model w) as [[t|e] w1];
    [reflexivity|].
  destruct (string_dec fallback_model fallback_model); [reflexivity | congruence].
Qed.

(** With the key set, a failed attempt on another model is followed by one
    run on the fallback model. *)
Lemma generate_after_failure (topic model : string) (w w1 : World) (e : Exn) :
  key_missing w = false ->
  model <> fallback_model ->
  generation_attempt topic model w = (Raise e, w1) ->
  generate_content_with_huggingface topic model w = fallback_run topic w1.
Proof.
  intros Hkey Hmodel Hfail. rewrite generate_unfold, Hkey, Hfail.
  destruct (string_dec model fallback_model); [contradiction|].
  apply generate_on_fallback.
  pose proof (attempt_keeps_key topic model w) as Hk.
  rewrite Hfail in Hk. simpl in Hk. congruence.
Qed.

Lemma fallback_run_returns (topic : string) (w : World) :
  exists s w', fallback_run topic w = (Return s, w')
    /\ (String.length s <= Nat.max 3000 (String.length (placeholder topic)))%nat.
Proof.
  unfold fallback_run.
  destruct (generation_attempt topic fallback_model w) as [[t|e] w1] eqn:Ha.
  - exists t, w1. split; [reflexivity|].
    apply attempt_text_length in Ha. lia.
  - exists (placeholder topic), w1. split; [reflexivity | lia].
Qed.

(** Every call with the key set returns a text: the generated one, cut to
    3000 characters, or the placeholder paragraph. *)
Lemma generate_returns (topic model : string) (w : World) :
  key_missing w = false ->
  exists s w', generate_content_with_huggingface topic model w = (Return s, w')
    /\ (String.length s <= Nat.max 3000 (String.length (placeholder topic)))%nat.
Proof.
  intros Hkey.
  destruct (string_dec model fallback_model) as [->|Hmodel].
  - rewrite generate_on_fallback by assumption. apply fallback_run_returns.
  - destruct (generation_attempt topic model w) as [[t|e] w1] eqn:Ha.
    + rewrite generate_unfold, Hkey, Ha. exists t, w1. split; [reflexivity|].
      apply attempt_text_length in Ha. lia.
    + rewrite (generate_after_failure topic model w w1 e) by assumption.
      apply fallback_run_returns.
Qed.

(** A transport error or a 4xx/5xx answer to the first request fails the
    attempt. *)
Lemma first_call_failure_raises (topic model : string) (w : World) :
  first_call_fails is_4xx_5xx topic model w ->
  exists e, generation_attempt topic model w
            = (Raise e, sending w [first_request topic model w]).
Proof.
  unfold first_call_fails. rewrite generation_attempt_cases; cbv zeta.
  destruct (service w (sent w) _) as [r1|msg]; intros H.
  - unfold is_4xx_5xx in H. unfold Py.is_error_status.
    replace (400 <=? status_code r1) with true by (symmetry; apply Z.leb_le; lia).
    replace (status_code r1 <? 600) with true by (symmetry; apply Z.ltb_lt; lia).
    eexists; reflexivity.
  - eexists; reflexivity.
Qed.

(** C4.  The generator raises exactly when the key is not configured: then
    it raises the server error 500 and the world is as before, so no request
    was sent; with the key set it returns a text, whatever the service does. *)
Theorem generator_raises_only_without_key (topic model : string) (w : World) :
  if key_missing w
  then generate_content_with_huggingface topic model w
       = (Raise (HTTPException 500 "HUGGINGFACE_API_KEY is not configured."), w)
  else exists s w',
       generate_content_with_huggingface topic model w = (Return s, w').
Proof.
  destruct (key_missing w) eqn:Hkey.
  - rewrite generate_unfold, Hkey. reflexivity.
  - destruct (generate_returns topic model w Hkey) as (s & w' & H & _).
    exists s, w'. exact H.
Qed.






(** The topics of the configuration are within that bound. *)
Lemma configured_topics_short (w : World) (topic : string) :
  In topic (content_topics (CONFIG w)) -> (String.length topic <= 2596)%nat.
Proof.
  simpl. intros [<-|[<-|[<-|[<-|[<-|[]]]]]]; simpl; lia.
Qed.




(** ** The publisher *)

Lemma post_to_linkedin_cases (post_text : value) (access_token author_urn : string)
    (w : World) :
  post_to_linkedin post_text access_token author_urn w =
  let request := publish_request post_text access_token author_urn in
  match service w (sent w) request with
  | Broken msg =>
      (Raise (HTTPException 500 ("Failed to post to LinkedIn: " ++ msg)),
       sending w [request])
  | Answered r =>
      if Py.is_error_status r
      then (Raise (upstream_error r), sending w [request])
      else (Return (success_result (Py.headers_get (headers r) "x-restli-id" "Unknown")),
            sending w [request])
  end.
Proof.
  unfold post_to_linkedin, try_except, bind, Py.requests_post, lift, ret, raise,
    sending, publish_request, Py.raise_for_status, upstream_error, success_result.
  cbv zeta.
  destruct (service w (sent w) _) as [r|msg]; [|reflexivity].
  destruct (Py.is_error_status r); reflexivity.
Qed.

Lemma error_status_iff (r : Response) :
  Py.is_error_status r = true <-> 400 <= status_code r < 600.
Proof.
  unfold Py.is_error_status. rewrite andb_true_iff, Z.leb_le, Z.ltb_lt. tauto.
Qed.

Lemma headers_get_absent (hs : list (string * string)) (name default : string) :
  Forall (fun kv => PyStr.lower (fst kv) <> PyStr.lower name) hs ->
  Py.headers_get hs name default = default.
Proof.
  induction 1 as [|[k v] hs Hk _ IH]; simpl; [reflexivity|].
  simpl in Hk. destruct (String.eqb_spec (PyStr.lower k) (PyStr.lower name));
    [contradiction | exact IH].
Qed.

(** C8, as amended.  On a 2xx answer the publisher returns the success
    result whose [post_id] is the value of the [x-restli-id] header of the
    response; on a 4xx or 5xx answer it raises the error that carries the
    status and the body of the response; either way the one request is all it
    sent. *)
Theorem publish_result_or_upstream_error (post_text : value)
    (access_token author_urn : string) (w : World) (r : Response) :
  let request := publish_request post_text access_token author_urn in
  service w (sent w) request = Answered r ->
  (200 <= status_code r < 300 ->
     post_to_linkedin post_text access_token author_urn w
     = (Return (success_result (Py.headers_get (headers r) "x-restli-id" "Unknown")),
        sending w [request]))
  /\ (is_4xx_5xx (status_code r) ->
       post_to_linkedin post_text access_token author_urn w
       = (Raise (HTTPException (status_code r) ("LinkedIn API error: " ++ text r)),
          sending w [request])).
Proof.
  intros request Hanswer. subst request.
  rewrite post_to_linkedin_cases; cbv zeta. rewrite Hanswer. split; intros Hs.
  - destruct (Py.is_error_status r) eqn:He; [|reflexivity].
    apply error_status_iff in He. lia.
  - apply error_status_iff in Hs. rewrite Hs. reflexivity.
Qed.

Lemma publish_result_or_upstream_error_witness :
  post_to_linkedin (VStr "Hello") "token" "urn:li:person:1"
    (world_platform (answer 201 [("X-RestLi-Id", "urn:li:share:42")] "") no_files)
  = (Return (success_result "urn:li:share:42"),
     sending (world_platform (answer 201 [("X-RestLi-Id", "urn:li:share:42")] "") no_files)
       [publish_request (VStr "Hello") "token" "urn:li:person:1"])
  /\ post_to_linkedin (VStr "Hello") "token" "urn:li:person:1"
       (world_platform (answer 422 [] "invalid author") no_files)
     = (Raise (HTTPException 422 "LinkedIn API error: invalid author"),
        sending (world_platform (answer 422 [] "invalid author") no_files)
          [publish_request (VStr "Hello") "token" "urn:li:person:1"]).
Proof.
  split.
  - apply (publish_result_or_upstream_error (VStr "Hello") "token" "urn:li:person:1"
             (world_platform (answer 201 [("X-RestLi-Id", "urn:li:share:42")] "") no_files)
             {| status_code := 201; headers := [("X-RestLi-Id", "urn:li:share:42")];
                text := "" |}).
    + reflexivity.
    + simpl; lia.
  - apply (publish_result_or_upstream_error (VStr "Hello") "token" "urn:li:person:1"
             (world_platform (answer 422 [] "invalid author") no_files)
             {| status_code := 422; headers := []; text := "invalid author" |}).
    + reflexivity.
    + unfold is_4xx_5xx; simpl; lia.
Defined.

(** C8, as worded, fails: on a 304 answer the publisher returns the success
    result and raises nothing. *)
Lemma publish_304_refuted :
  ~ publishes_or_raises_on_non_2xx (VStr "Hello") "token" "urn:li:person:1"
      (world_platform (answer 304 [] "") no_files)
      {| status_code := 304; headers := []; text := "" |}.
Proof.
  unfold publishes_or_raises_on_non_2xx; cbv zeta. intros H.
  destruct H as [_ H]; [reflexivity|].
  assert (Hno : non_2xx 304) by (unfold non_2xx; lia).
  specialize (H Hno). apply (f_equal fst) in H. revert H.
  vm_compute. discriminate.
Qed.

(** C10.  On a 2xx answer that has no [x-restli-id] header the publisher
    still returns the success result, with the post_id [Unknown]. *)
Theorem publish_without_id_header (post_text : value)
    (access_token author_urn : string) (w : World) (r : Response) :
  service w (sent w) (publish_request post_text access_token author_urn)
  = Answered r ->
  200 <= status_code r < 300 ->
  header_absent "x-restli-id" r ->
  post_to_linkedin post_text access_token author_urn w
  = (Return (VDict [ ("status", VStr "success");
                     ("post_id", VStr "Unknown");
                     ("message", VStr "Post uploaded to LinkedIn") ]),
     sending w [publish_request post_text access_token author_urn]).
Proof.
  intros Hanswer Hs Habsent.
  rewrite post_to_linkedin_cases; cbv zeta. rewrite Hanswer.
  destruct (Py.is_error_status r) eqn:He.
  - apply error_status_iff in He. lia.
  - rewrite (headers_get_absent _ _ _ Habsent). reflexivity.
Qed.

Lemma publish_without_id_header_witness :
  post_to_linkedin (VStr "Hello") "token" "urn:li:person:1"
    (world_platform (answer 201 [("Content-Length", "0")] "") no_files)
  = (Return (success_result "Unknown"),
     sending (world_platform (answer 201 [("Content-Length", "0")] "") no_files)
       [publish_request (VStr "Hello") "token" "urn:li:person:1"]).
Proof.
  apply (publish_without_id_header (VStr "Hello") "token" "urn:li:person:1"
           (world_platform (answer 201 [("Content-Length", "0")] "") no_files)
           {| status_code := 201; headers := [("Content-Length", "0")]; text := "" |}).
  - reflexivity.
  - simpl; lia.
  - repeat constructor. simpl. discriminate.
Defined.

(** ** The review store *)

Lemma load_pending_posts_cases (w : World) :
  load_pending_posts w =
  (Return match files w (queue_path w) with
          | Data content =>
              match Json.loads content with
              | Some v => v
              | None => VList []
              end
          | _ => VList []
          end, w).
Proof.
  unfold load_pending_posts, try_except, bind, Py.read_file, ret, raise.
  destruct (files w (queue_path w)) as [| |content]; try reflexivity.
  destruct (Json.loads content); reflexivity.
Qed.


Lemma eq_str_other (v : value) (s : string) :
  v <> VStr s -> Py.eq_str v s = false.
Proof.
  destruct v as [| |t| |]; simpl; try reflexivity.
  intros H. destruct (String.eqb_spec t s); [subst; contradiction | reflexivity].
Qed.

Lemma find_post_none (items : list value) (post_id : string) :
  Forall (has_other_id post_id) items -> find_post items post_id = Return None.
Proof.
  induction 1 as [|p items (d & v & -> & Hid & Hne) _ IH]; simpl; [reflexivity|].
  rewrite Hid. simpl. rewrite (eq_str_other v post_id Hne). exact IH.
Qed.



(** C5.  When saving the posts returns a path, loading the queue next, on
    the same day and with nothing written in between, returns exactly these
    posts: the encoded list is decoded back. *)
Theorem save_then_load (posts : list value) (w w1 : World) (path : string) :
  forallb faithful posts = true ->
  save_posts_for_review posts w = (Return (Some path), w1) ->
  load_pending_posts w1 = (Return (VList posts), w1).
Proof.
  intros Hposts Hsave.
  unfold save_posts_for_review, try_except, bind, Py.write_file, ret in Hsave.
  destruct (writable w (queue_path w)); [|discriminate Hsave].
  injection Hsave as _ <-.
  rewrite load_pending_posts_cases.
  change (queue_path (with_files w _)) with (queue_path w).
  cbn [files with_files]. rewrite String.eqb_refl.
  rewrite loads_dumps by exact Hposts. reflexivity.
Qed.

Lemma save_then_load_witness :
  load_pending_posts
    (snd (save_posts_for_review sample_posts
            (world_platform (answer 201 [] "") no_files)))
  = (Return (VList sample_posts),
     snd (save_posts_for_review sample_posts
            (world_platform (answer 201 [] "") no_files))).
Proof.
  apply (save_then_load sample_posts
           (world_platform (answer 201 [] "") no_files) _
           "/tmp/pending_posts/posts_20250801.json").
  - reflexivity.
  - reflexivity.
Defined.

(** ** The composer *)

(** C9 fails on the code: the generated content is cut to 3000 characters
    before the template is wrapped around it.  Here the service answers with
    4399 characters; the composed text has 3115 characters. *)
Lemma composed_text_exceeds_3000 :
  exists post text w',
    create_post world_long = (Return post, w')
    /\ Py.getitem post "text" = Return (VStr text)
    /\ String.length text = 3115%nat
    /\ (3000 < String.length text)%nat.
Proof.
  eexists; eexists; eexists. split; [vm_compute; reflexivity|].
  split; [vm_compute; reflexivity|].
  assert (Hlen : forall n : nat, n = 3115%nat -> n = 3115%nat /\ (3000 < n)%nat)
    by (intros n ->; split; [reflexivity | lia]).
  apply Hlen. vm_compute. reflexivity.
Qed.

(** * Further properties *)

(** ** More on the generator *)

Lemma sending_sending (w : World) (l1 l2 : list Request) :
  sending (sending w l1) l2 = sending w (l1 ++ l2).
Proof.
  unfold sending, with_sent; cbn. rewrite <- app_assoc. reflexivity.
Qed.

Lemma attempt_requests (topic model : string) (w : World) :
  exists l, snd (generation_attempt topic model w) = sending w l
    /\ (1 <= length l <= 2)%nat
    /\ Forall (fun r => url r = generation_url model
                        /\ request_headers r = generation_headers w
                        /\ exists inputs, json r = Generation inputs generation_parameters) l.
Proof.
  rewrite generation_attempt_cases; cbv zeta.
  assert (H1 : forall inputs,
             url (generation_request inputs model w) = generation_url model
             /\ request_headers (generation_request inputs model w) = generation_headers w
             /\ exists i, json (generation_request inputs model w)
                          = Generation i generation_parameters)
    by (intros; repeat split; eexists; reflexivity).
  assert (One : exists l, sending w [first_request topic model w] = sending w l
             /\ (1 <= length l <= 2)%nat
             /\ Forall (fun r => url r = generation_url model
                        /\ request_headers r = generation_headers w
                        /\ exists inputs, json r = Generation inputs generation_parameters) l).
  { eexists; split; [reflexivity|]. split; [simpl; lia|]. repeat constructor; apply H1. }
  assert (Two : exists l, sending w [first_request topic model w;
                                     follow_up_request topic model w] = sending w l
             /\ (1 <= length l <= 2)%nat
             /\ Forall (fun r => url r = generation_url model
                        /\ request_headers r = generation_headers w
                        /\ exists inputs, json r = Generation inputs generation_parameters) l).
  { eexists; split; [reflexivity|]. split; [simpl; lia|]. repeat constructor; apply H1. }
  destruct (service w (sent w) (first_request topic model w)) as [r1|msg]; [|exact One].
  destruct (Py.is_error_status r1); [exact One|].
  destruct (generated_text_of r1) as [t1|e]; [|exact One].
  destruct (word_count t1 <? word_threshold)%nat; [|exact One].
  destruct (service w _ _) as [r2|msg]; [|exact Two].
  destruct (Py.is_error_status r2); [exact Two|].
  destruct (generated_text_of r2) as [t2|e]; exact Two.
Qed.

Lemma snd_fallback_run (topic : string) (w : World) :
  snd (fallback_run topic w) = snd (generation_attempt topic fallback_model w).
Proof.
  unfold fallback_run.
  destruct (generation_attempt topic fallback_model w) as [[t|e] w1]; reflexivity.
Qed.

(** X2.  A call on the fallback model is never retried: it sends one or two
    requests, all to the fallback model. *)
Theorem fallback_call_sends_at_most_two (topic : string) (w : World) :
  key_missing w = false ->
  exists l,
    snd (generate_content_with_huggingface topic fallback_model w) = sending w l
    /\ (1 <= length l <= 2)%nat
    /\ Forall (fun r => url r = generation_url fallback_model) l.
Proof.
  intros Hkey. rewrite generate_on_fallback by exact Hkey.
  rewrite snd_fallback_run.
  destruct (attempt_requests topic fallback_model w) as (l & Hl & Hn & Hall).
  exists l. split; [exact Hl|]. split; [exact Hn|].
  eapply Forall_impl; [|exact Hall]. intros r H; apply H.
Qed.

Lemma fallback_call_sends_at_most_two_witness :
  exists l,
    snd (generate_content_with_huggingface "AI Developments" fallback_model world_down)
    = sending world_down l
    /\ (1 <= length l <= 2)%nat
    /\ Forall (fun r => url r = generation_url fallback_model) l.
Proof. apply fallback_call_sends_at_most_two. reflexivity. Defined.

Lemma generate_only_sends (topic model : string) (w : World) :
  key_missing w = false ->
  exists l, snd (generate_content_with_huggingface topic model w) = sending w l.
Proof.
  intros Hkey.
  destruct (attempt_only_sends topic model w) as [l1 Hl1].
  destruct (generation_attempt topic model w) as [[t|e] w1] eqn:Ha; cbn [snd] in Hl1.
  - rewrite generate_unfold, Hkey, Ha. exists l1. exact Hl1.
  - destruct (string_dec model fallback_model) as [->|Hmodel].
    + rewrite generate_on_fallback by exact Hkey. rewrite snd_fallback_run, Ha.
      exists l1. exact Hl1.
    + rewrite (generate_after_failure topic model w w1 e Hkey Hmodel Ha).
      rewrite snd_fallback_run.
      destruct (attempt_only_sends topic fallback_model w1) as [l2 Hl2].
      exists (l1 ++ l2)%list. rewrite Hl2, Hl1, sending_sending. reflexivity.
Qed.

(** X1.  With the key set, a call sends at least one and at most four
    requests, each to the model or to the fallback model with the key of the
    configuration and the fixed parameters, and changes nothing else in the
    world. *)
Theorem generator_sends_at_most_four (topic model : string) (w : World) :
  key_missing w = false ->
  exists l,
    snd (generate_content_with_huggingface topic model w) = sending w l
    /\ (1 <= length l <= 4)%nat
    /\ Forall (generation_request_for model w) l.
Proof.
  intros Hkey.
  destruct (attempt_requests topic model w) as (l1 & Hl1 & Hn1 & Hall1).
  assert (Hfirst : Forall (generation_request_for model w) l1).
  { eapply Forall_impl; [|exact Hall1].
    intros r (Hu & Hh & Hj). split; [left; exact Hu | split; assumption]. }
  destruct (generation_attempt topic model w) as [[t|e] w1] eqn:Ha; cbn [snd] in Hl1.
  - rewrite generate_unfold, Hkey, Ha. exists l1. cbn [snd].
    split; [exact Hl1|]. split; [lia | exact Hfirst].
  - destruct (string_dec model fallback_model) as [->|Hmodel].
    + rewrite generate_on_fallback by exact Hkey. rewrite snd_fallback_run, Ha.
      exists l1. cbn [snd]. split; [exact Hl1|]. split; [lia | exact Hfirst].
    + rewrite (generate_after_failure topic model w w1 e Hkey Hmodel Ha).
      rewrite snd_fallback_run.
      destruct (attempt_requests topic fallback_model w1) as (l2 & Hl2 & Hn2 & Hall2).
      exists (l1 ++ l2)%list. rewrite Hl2, Hl1, sending_sending.
      split; [reflexivity|]. split; [rewrite length_app; lia|].
      apply Forall_app. split; [exact Hfirst|].
      eapply Forall_impl; [|exact Hall2].
      intros r (Hu & Hh & Hj). subst w1.
      split; [right; exact Hu | split; assumption].
Qed.

Lemma generator_sends_at_most_four_witness :
  exists l,
    snd (generate_content_with_huggingface "AI Developments" default_model world_short)
    = sending world_short l
    /\ (1 <= length l <= 4)%nat
    /\ Forall (generation_request_for default_model world_short) l.
Proof. apply generator_sends_at_most_four. reflexivity. Defined.






(** ** The composer *)

Lemma key_missing_with_draws (w : World) (n : nat) :
  key_missing (with_draws w n) = key_missing w.
Proof. reflexivity. Qed.

Lemma choice_of_five (a b c d e : string) (n : nat) :
  In (nth (n mod 5)%nat [a; b; c; d; e] EmptyString) [a; b; c; d; e].
Proof.
  apply nth_In. change (n mod 5 < 5)%nat. apply Nat.mod_upper_bound. discriminate.
Qed.

(** Each template, filled in: the topic and the content take the place of
    the two fields. *)
Lemma format_template (w : World) (template topic content : string) :
  In template (post_templates (CONFIG w)) ->
  exists pre mid suf,
    template = pre ++ "{topic}" ++ mid ++ "{content}" ++ suf
    /\ Py.format template [("topic", topic); ("content", content)]
       = Return (pre ++ topic ++ mid ++ content ++ suf)
    /\ (String.length pre + String.length mid + String.length suf <= 106)%nat.
Proof.
  simpl. intros [<-|[<-|[<-|[<-|[<-|[]]]]]].
  - exists "Sharing insights on ", ": ",
      " This advancement is shaping the future of technology. #Tech #Innovation".
    split; [reflexivity | split; [reflexivity | simpl; lia]].
  - exists "The latest in ", ": ",
      " This development highlights the potential for growth in the industry. #Technology #Future".
    split; [reflexivity | split; [reflexivity | simpl; lia]].
  - exists "A deep dive into ", ": ",
      " This trend is driving significant progress. #TechTrends #Innovation".
    split; [reflexivity | split; [reflexivity | simpl; lia]].
  - exists "Exploring advancements in ", ": ",
      " These innovations are redefining the landscape. #SoftwareEngineering #Tech".
    split; [reflexivity | split; [reflexivity | simpl; lia]].
  - exists "", " continues to evolve: ",
      " This progress underscores the impact of technology on our world. #AI #Innovation".
    split; [reflexivity | split; [reflexivity | simpl; lia]].
Qed.

Lemma create_post_parts (w : World) :
  key_missing w = false ->
  exists id topic content pre mid suf w',
    create_post w
    = (Return (VDict [ ("id", VStr id);
                       ("text", VStr (pre ++ topic ++ mid ++ content ++ suf));
                       ("topic", VStr topic);
                       ("created_at", VStr (now_isoformat w)) ]), w')
    /\ In topic (content_topics (CONFIG w))
    /\ In (pre ++ "{topic}" ++ mid ++ "{content}" ++ suf) (post_templates (CONFIG w))
    /\ fst (generate_content_with_huggingface topic default_model
              (with_draws w (S (draws w)))) = Return content
    /\ (String.length pre + String.length mid + String.length suf <= 106)%nat
    /\ (String.length content <= 3000)%nat
    /\ (exists l, w' = with_draws (sending w l) (draws w + 3))
    /\ id = uuid_of w (draws w + 2)%nat.
Proof.
  intros Hkey. unfold create_post, bind, Py.random_choice, Py.uuid4, lift, ret.
  set (topic := nth _ (content_topics (CONFIG w)) EmptyString).
  assert (Htopic : In topic (content_topics (CONFIG w))) by apply choice_of_five.
  destruct (generate_returns topic default_model (with_draws w (S (draws w))) Hkey)
    as (content & w2 & Hgen & Hcontent).
  rewrite Hgen.
  set (template := nth _ (post_templates (CONFIG w)) EmptyString).
  assert (Htemplate : In template (post_templates (CONFIG w))) by apply choice_of_five.
  destruct (format_template w template topic content Htemplate)
    as (pre & mid & suf & Ht & Hformat & Hlen).
  rewrite Hformat.
  eexists; exists topic, content, pre, mid, suf; eexists.
  split; [reflexivity|]. split; [exact Htopic|]. split; [rewrite <- Ht; exact Htemplate|].
  split; [rewrite Hgen; reflexivity|]. split; [exact Hlen|].
  destruct (generate_only_sends topic default_model
              (with_draws w (S (draws w))) Hkey) as (l & Hl).
  rewrite Hgen in Hl. cbn [snd] in Hl. subst w2. split; [|split].
  - pose proof (configured_topics_short w topic Htopic) as Hshort.
    rewrite placeholder_length in Hcontent. lia.
  - exists l. unfold with_draws, sending, with_sent; cbn.
    replace (draws w + 3)%nat with (S (S (S (draws w)))) by lia. reflexivity.
  - cbn. replace (draws w + 2)%nat with (S (S (draws w))) by lia. reflexivity.
Qed.

(** X6.  With the key set, [create_post] returns a post with the four fields
    id, text, topic and created_at, in that order: the topic is one of the
    configured topics, and the text is one of the configured templates with
    the topic and the generated content in the place of its two fields. *)
Theorem create_post_shape (w : World) :
  key_missing w = false ->
  exists id topic content pre mid suf w',
    create_post w
    = (Return (VDict [ ("id", VStr id);
                       ("text", VStr (pre ++ topic ++ mid ++ content ++ suf));
                       ("topic", VStr topic);
                       ("created_at", VStr (now_isoformat w)) ]), w')
    /\ In topic (content_topics (CONFIG w))
    /\ In (pre ++ "{topic}" ++ mid ++ "{content}" ++ suf) (post_templates (CONFIG w))
    /\ fst (generate_content_with_huggingface topic default_model
              (with_draws w (S (draws w)))) = Return content.
Proof.
  intros Hkey.
  destruct (create_post_parts w Hkey)
    as (id & topic & content & pre & mid & suf & w' & H1 & H2 & H3 & H4 & _).
  exists id, topic, content, pre, mid, suf, w'. repeat split; assumption.
Qed.

Lemma create_post_shape_witness :
  exists id topic content pre mid suf w',
    create_post world_short
    = (Return (VDict [ ("id", VStr id);
                       ("text", VStr (pre ++ topic ++ mid ++ content ++ suf));
                       ("topic", VStr topic);
                       ("created_at", VStr (now_isoformat world_short)) ]), w')
    /\ In topic (content_topics (CONFIG world_short))
    /\ In (pre ++ "{topic}" ++ mid ++ "{content}" ++ suf)
         (post_templates (CONFIG world_short))
    /\ fst (generate_content_with_huggingface topic default_model
              (with_draws world_short (S (draws world_short)))) = Return content.
Proof. apply create_post_shape. reflexivity. Defined.

(** X7.  With the key set, the text of the post [create_post] returns has at
    most 3127 characters: 3000 of content, 21 of topic and 106 of template. *)
Theorem composed_text_at_most_3127 (w : World) :
  key_missing w = false ->
  exists post text w',
    create_post w = (Return post, w')
    /\ Py.getitem post "text" = Return (VStr text)
    /\ (String.length text <= 3127)%nat.
Proof.
  intros Hkey.
  destruct (create_post_parts w Hkey)
    as (id & topic & content & pre & mid & suf & w' & Hpost & Htopic & _ & _
        & Hlen & Hcontent & _).
  eexists; exists (pre ++ topic ++ mid ++ content ++ suf), w'.
  split; [exact Hpost|]. split; [reflexivity|].
  pose proof (configured_topics_short w topic Htopic) as Hshort.
  assert (Hbound : (String.length topic <= 21)%nat).
  { revert Htopic. simpl. intros [<-|[<-|[<-|[<-|[<-|[]]]]]]; simpl; lia. }
  rewrite !length_append. lia.
Qed.

Lemma composed_text_at_most_3127_witness :
  exists post text w',
    create_post world_long = (Return post, w')
    /\ Py.getitem post "text" = Return (VStr text)
    /\ (String.length text <= 3127)%nat.
Proof. apply composed_text_at_most_3127. reflexivity. Defined.

(** X8.  Without the key, [create_post] raises the server error of the
    generator after the topic has been drawn: no request is sent, no template
    is chosen and no identifier made. *)
Theorem create_post_without_key (w : World) :
  key_missing w = true ->
  create_post w
  = (Raise (HTTPException 500 "HUGGINGFACE_API_KEY is not configured."),
     with_draws w (S (draws w))).
Proof.
  intros Hkey. unfold create_post, bind, Py.random_choice.
  rewrite generate_unfold. rewrite key_missing_with_draws, Hkey. reflexivity.
Qed.

Lemma create_post_without_key_witness :
  create_post world_no_key
  = (Raise (HTTPException 500 "HUGGINGFACE_API_KEY is not configured."),
     with_draws world_no_key (S (draws world_no_key))).
Proof. apply create_post_without_key. reflexivity. Defined.

(** ** More on the review store *)

(** X9.  When the file of the day cannot be opened for writing, saving
    returns [None] instead of raising, and the world is as before. *)
Theorem save_failure_returns_none (posts : list value) (w : World) :
  writable w (queue_path w) = false ->
  save_posts_for_review posts w = (Return None, w).
Proof.
  intros Hw. unfold save_posts_for_review, try_except, bind, Py.write_file, ret.
  rewrite Hw. reflexivity.
Qed.

Lemma save_failure_returns_none_witness :
  save_posts_for_review sample_posts world_read_only
  = (Return None, world_read_only).
Proof. apply save_failure_returns_none. reflexivity. Defined.

Lemma save_cases (posts : list value) (w : World) :
  save_posts_for_review posts w =
  if writable w (queue_path w)
  then (Return (Some (queue_path w)),
        with_files w (fun p => if String.eqb p (queue_path w)
                               then Data (Json.dumps (VList posts))
                               else files w p))
  else (Return None, w).
Proof.
  unfold save_posts_for_review, try_except, bind, Py.write_file, ret.
  destruct (writable w (queue_path w)); reflexivity.
Qed.

Lemma load_after_write (posts : list value) (w : World) :
  forallb faithful posts = true ->
  let w1 := with_files w (fun p => if String.eqb p (queue_path w)
                                   then Data (Json.dumps (VList posts))
                                   else files w p) in
  load_pending_posts w1 = (Return (VList posts), w1).
Proof.
  intros Hposts; cbv zeta. rewrite load_pending_posts_cases.
  change (queue_path (with_files w _)) with (queue_path w).
  cbn [files with_files]. rewrite String.eqb_refl.
  rewrite loads_dumps by exact Hposts. reflexivity.
Qed.

(** X10.  Saving replaces the queue of the day: after two saves on the same
    day, loading returns the posts of the second one and nothing of the
    first. *)
Theorem last_save_wins (first second : list value) (w : World) :
  writable w (queue_path w) = true ->
  forallb faithful second = true ->
  let w2 := snd (save_posts_for_review second
                   (snd (save_posts_for_review first w))) in
  load_pending_posts w2 = (Return (VList second), w2).
Proof.
  intros Hw Hsecond. cbv zeta.
  rewrite (save_cases first w), Hw. cbn [snd].
  rewrite save_cases.
  change (queue_path (with_files w _)) with (queue_path w).
  change (writable (with_files w _) (queue_path w)) with (writable w (queue_path w)).
  rewrite Hw. cbn [snd].
  rewrite load_pending_posts_cases.
  change (queue_path (with_files _ _)) with (queue_path w).
  cbn [files with_files]. rewrite String.eqb_refl.
  rewrite loads_dumps by exact Hsecond. reflexivity.
Qed.

Lemma last_save_wins_witness :
  let w2 := snd (save_posts_for_review [sample_post "post-3" "Third."]
                   (snd (save_posts_for_review sample_posts
                           (world_platform (answer 201 [] "") no_files)))) in
  load_pending_posts w2 = (Return (VList [sample_post "post-3" "Third."]), w2).
Proof. apply last_save_wins; reflexivity. Defined.

(** X11.  Saving touches the file of the day and nothing else: every other
    file, the requests sent and the random draws are as before. *)
Theorem save_touches_only_queue_file (posts : list value) (w : World) :
  let w' := snd (save_posts_for_review posts w) in
  sent w' = sent w
  /\ draws w' = draws w
  /\ forall path, path <> queue_path w -> files w' path = files w path.
Proof.
  cbv zeta. rewrite save_cases.
  destruct (writable w (queue_path w)); cbn [snd sent draws files with_files];
    repeat split; try reflexivity.
  intros path Hpath.
  destruct (String.eqb_spec path (queue_path w)); [contradiction | reflexivity].
Qed.



(** ** More on the publisher *)

(** X12.  When the request to the platform meets a transport error, the
    publisher raises the error 500 whose detail ends with the message of the
    transport, after that one request. *)
Theorem publish_transport_failure (post_text : value)
    (access_token author_urn : string) (w : World) (msg : string) :
  service w (sent w) (publish_request post_text access_token author_urn)
  = Broken msg ->
  post_to_linkedin post_text access_token author_urn w
  = (Raise (HTTPException 500 ("Failed to post to LinkedIn: " ++ msg)),
     sending w [publish_request post_text access_token author_urn]).
Proof.
  intros Hbroken. rewrite post_to_linkedin_cases; cbv zeta.
  rewrite Hbroken. reflexivity.
Qed.

Lemma publish_transport_failure_witness :
  post_to_linkedin (VStr "Hello") "token" "urn:li:person:1"
    (world_platform (Broken "ConnectionError") no_files)
  = (Raise (HTTPException 500 "Failed to post to LinkedIn: ConnectionError"),
     sending (world_platform (Broken "ConnectionError") no_files)
       [publish_request (VStr "Hello") "token" "urn:li:person:1"]).
Proof.
  apply (publish_transport_failure (VStr "Hello") "token" "urn:li:person:1"
           (world_platform (Broken "ConnectionError") no_files) "ConnectionError").
  reflexivity.
Defined.

(** X13.  Whatever the platform does, the publisher sends exactly one
    request, the publication of the text for the author with the bearer
    token, and the only exception it lets out is an [HTTPException] with a
    status from 400 to 599. *)
Theorem publisher_sends_one_request (post_text : value)
    (access_token author_urn : string) (w : World) :
  snd (post_to_linkedin post_text access_token author_urn w)
  = sending w [publish_request post_text access_token author_urn]
  /\ forall e,
       fst (post_to_linkedin post_text access_token author_urn w) = Raise e ->
       exists status detail,
         e = HTTPException status detail /\ 400 <= status < 600.
Proof.
  rewrite post_to_linkedin_cases; cbv zeta.
  destruct (service w (sent w) _) as [r|msg].
  - destruct (Py.is_error_status r) eqn:He; cbn [fst snd].
    + split; [reflexivity|]. intros e [= <-].
      apply error_status_iff in He.
      eexists; eexists; split; [reflexivity | exact He].
    + split; [reflexivity | discriminate].
  - cbn [fst snd]. split; [reflexivity|]. intros e [= <-].
    eexists; eexists; split; [reflexivity | lia].
Qed.

(** ** More on the upload handler *)

Lemma find_post_first (before after : list value) (post : value)
    (post_id : string) :
  Forall (has_other_id post_id) before ->
  has_id post_id post ->
  find_post (before ++ post :: after)%list post_id = Return (Some post).
Proof.
  intros Hbefore (d & -> & Hid).
  induction Hbefore as [|p before (d' & v & -> & Hid' & Hne) _ IH]; simpl.
  - rewrite Hid. simpl. rewrite String.eqb_refl. reflexivity.
  - rewrite Hid'. simpl. rewrite (eq_str_other v post_id Hne). exact IH.
Qed.

(** Once the post is found and has a text, the handler is the publisher on
    that text, with the answer wrapped. *)
Lemma upload_found (post_id access_token author_urn : string) (w : World)
    (before after : list value) (post body : value) :
  fst (load_pending_posts w) = Return (VList (before ++ post :: after)%list) ->
  Forall (has_other_id post_id) before ->
  has_id post_id post ->
  Py.getitem post "text" = Return body ->
  upload_post post_id access_token author_urn w =
  let request := publish_request body access_token author_urn in
  match service w (sent w) request with
  | Broken msg =>
      (Raise (HTTPException 500 ("Failed to post to LinkedIn: " ++ msg)),
       sending w [request])
  | Answered r =>
      if Py.is_error_status r
      then (Raise (upstream_error r), sending w [request])
      else (Return (upload_result (Py.headers_get (headers r) "x-restli-id" "Unknown")
                      post),
            sending w [request])
  end.
Proof.
  intros Hload Hbefore Hpost Hbody. unfold upload_post, bind.
  rewrite load_pending_posts_cases in *. cbn [fst] in Hload.
  injection Hload as ->. unfold lift; cbn [Py.iter].
  rewrite (find_post_first before after post post_id Hbefore Hpost).
  destruct Hpost as (d & -> & Hid).
  assert (Htruthy : Py.truthy (VDict d) = true).
  { destruct d; [discriminate Hid | reflexivity]. }
  rewrite Htruthy, Hbody.
  rewrite post_to_linkedin_cases; cbv zeta.
  destruct (service w (sent w) _) as [r|msg]; [|reflexivity].
  destruct (Py.is_error_status r); reflexivity.
Qed.









(** ** The webhook relay *)

Lemma post_to_zapier_cases (post : value) (h : Host) :
  post_to_zapier post h =
  match ZAPIER_WEBHOOK h with
  | None => (Return tt, h)
  | Some address =>
      if PyStr.is_empty address then (Return tt, h)
      else
        match Py.getitem post "text" with
        | Raise _ => (Return tt, h)
        | Return body =>
            (Return tt,
             with_relayed h
               (relayed h ++ [{| webhook_url := address; webhook_text := body |}]))
        end
  end.
Proof.
  unfold post_to_zapier, host_try, host_bind, host_lift, host_ret, webhook_post.
  destruct (ZAPIER_WEBHOOK h) as [address|]; [|reflexivity].
  destruct (PyStr.is_empty address); [reflexivity|].
  destruct (Py.getitem post "text") as [body|e]; [|reflexivity].
  destruct (webhook h (relayed h) _) as [r|msg]; [|reflexivity].
  unfold Py.raise_for_status. destruct (Py.is_error_status r); reflexivity.
Qed.

(** X18.  The relay never raises and tells its caller nothing: it returns
    [None] whatever the webhook does, leaves the world as it was and makes at
    most one call. *)
Theorem relay_swallows_every_failure (post : value) (h : Host) :
  fst (post_to_zapier post h) = Return tt
  /\ world (snd (post_to_zapier post h)) = world h
  /\ exists calls,
       relayed (snd (post_to_zapier post h)) = (relayed h ++ calls)%list
       /\ (length calls <= 1)%nat.
Proof.
  rewrite post_to_zapier_cases.
  assert (Same : fst (Return tt, h) = Return tt
                 /\ world (snd (Return tt, h)) = world h
                 /\ exists calls,
                      relayed (snd (Return tt, h)) = (relayed h ++ calls)%list
                      /\ (length calls <= 1)%nat).
  { split; [reflexivity|]. split; [reflexivity|].
    exists []. rewrite app_nil_r. split; [reflexivity | simpl; lia]. }
  destruct (ZAPIER_WEBHOOK h) as [address|]; [|exact Same].
  destruct (PyStr.is_empty address); [exact Same|].
  destruct (Py.getitem post "text") as [body|e]; [|exact Same].
  split; [reflexivity|]. split; [reflexivity|].
  eexists. split; [reflexivity | simpl; lia].
Qed.

(** X19.  Nothing is relayed when the address of the webhook is unset or
    empty, or when the post has no [text]: the host is as before. *)
Theorem relay_sends_nothing (post : value) (h : Host) :
  ZAPIER_WEBHOOK h = None \/ ZAPIER_WEBHOOK h = Some EmptyString
  \/ (exists e, Py.getitem post "text" = Raise e) ->
  post_to_zapier post h = (Return tt, h).
Proof.
  rewrite post_to_zapier_cases. intros [H|[H|[e H]]].
  - rewrite H. reflexivity.
  - rewrite H. reflexivity.
  - destruct (ZAPIER_WEBHOOK h) as [address|]; [|reflexivity].
    destruct (PyStr.is_empty address); [reflexivity|]. rewrite H. reflexivity.
Qed.

Lemma relay_sends_nothing_witness :
  post_to_zapier (sample_post "post-1" "First.")
    (host_of world_down None (Broken "ConnectionError") dirs_ok)
  = (Return tt, host_of world_down None (Broken "ConnectionError") dirs_ok)
  /\ post_to_zapier (VDict [("id", VStr "post-1")])
       (host_of world_down (Some "https://hooks.example/1") (answer 200 [] "") dirs_ok)
     = (Return tt,
        host_of world_down (Some "https://hooks.example/1") (answer 200 [] "") dirs_ok).
Proof.
  split; apply relay_sends_nothing.
  - left. reflexivity.
  - right. right. eexists. reflexivity.
Defined.

(** X20.  With an address set and a post that has a [text], the relay makes
    exactly one call, to that address and with that text alone; a 4xx/5xx
    answer or a transport error changes nothing of what it returns. *)
Theorem relay_posts_text_once (post body : value) (address : string) (h : Host) :
  ZAPIER_WEBHOOK h = Some address ->
  PyStr.is_empty address = false ->
  Py.getitem post "text" = Return body ->
  post_to_zapier post h
  = (Return tt,
     with_relayed h
       (relayed h ++ [{| webhook_url := address; webhook_text := body |}])).
Proof.
  intros Haddress Hne Hbody.
  rewrite post_to_zapier_cases, Haddress, Hne, Hbody. reflexivity.
Qed.

Lemma relay_posts_text_once_witness :
  post_to_zapier (sample_post "post-1" "First.")
    (host_of world_down (Some "https://hooks.example/1") (answer 500 [] "down") dirs_ok)
  = (Return tt,
     with_relayed
       (host_of world_down (Some "https://hooks.example/1") (answer 500 [] "down") dirs_ok)
       [{| webhook_url := "https://hooks.example/1"; webhook_text := VStr "First." |}]).
Proof.
  apply (relay_posts_text_once (sample_post "post-1" "First.") (VStr "First.")
           "https://hooks.example/1"); reflexivity.
Defined.

(** ** The generation endpoint *)

(** With the key set, the list comprehension returns [n] composed posts and
    changes the requests sent and the draws only. *)
Lemma create_posts_returns (n : nat) (w : World) :
  key_missing w = false ->
  exists posts l,
    create_posts n w
    = (Return posts, with_draws (sending w l) (draws w + 3 * n))
    /\ length posts = n
    /\ Forall (composed_post w) posts
    /\ forallb faithful posts = true.
Proof.
  revert w; induction n as [|n IH]; intros w Hkey.
  - exists [], []. cbn [create_posts ret]. repeat split; try constructor.
    unfold with_draws, sending, with_sent; cbn.
    rewrite app_nil_r, Nat.add_0_r. destruct w; reflexivity.
  - destruct (create_post_parts w Hkey)
      as (id & topic & content & pre & mid & suf & w1 & Hpost & Htopic & _ & _
          & _ & _ & (l1 & ->) & _).
    destruct (IH (with_draws (sending w l1) (draws w + 3)) Hkey)
      as (posts & l2 & Hposts & Hlen & Hall & Hfaithful).
    eexists; exists (l1 ++ l2)%list.
    cbn [create_posts]. unfold bind at 1. rewrite Hpost.
    unfold bind at 1. rewrite Hposts. unfold ret. split; [|split; [|split]].
    + f_equal. unfold with_draws, sending, with_sent; cbn.
      rewrite <- app_assoc. f_equal. lia.
    + simpl. rewrite Hlen. reflexivity.
    + constructor; [|exact Hall].
      eexists; eexists; exists topic. split; [reflexivity | exact Htopic].
    + cbn [forallb]. rewrite Hfaithful. reflexivity.
Qed.

Lemma generate_posts_cases (h : Host) :
  generate_posts h =
  match makedirs h (output_dir (CONFIG (world h))) with
  | None => (Raise (OtherError "OSError"), h)
  | Some can_write =>
      match create_posts 4 (with_writable (world h) can_write) with
      | (Raise e, w1) => (Raise e, with_world h w1)
      | (Return posts, w1) =>
          match save_posts_for_review posts w1 with
          | (Return file_path, w2) =>
              (Return (generation_report posts (path_or_error file_path)),
               with_world h w2)
          | (Raise e, w2) => (Raise e, with_world h w2)
          end
      end
  end.
Proof.
  unfold generate_posts, ensure_output_dir, host_bind, in_world, host_ret.
  destruct (makedirs h (output_dir (CONFIG (world h)))) as [can_write|];
    [|reflexivity].
  cbn [world with_world CONFIG post_count_per_day manual_review].
  destruct (create_posts 4 (with_writable (world h) can_write)) as [[posts|e] w1];
    [|reflexivity].
  cbn [world with_world].
  destruct (save_posts_for_review posts w1) as [[file_path|e] w2]; reflexivity.
Qed.

Lemma queue_path_not_empty (w : World) : PyStr.is_empty (queue_path w) = false.
Proof. reflexivity. Qed.

(** X21.  With the key set and the output directory in place, the endpoint
    answers with exactly four posts, each with the four fields and a
    configured topic, under the message of the manual review; the path of the
    queue file is reported when the file could be written and the text
    [Error saving file] when it could not, the posts being returned either
    way. *)
Theorem generate_posts_returns_four (h : Host) (can_write : string -> bool) :
  key_missing (world h) = false ->
  makedirs h (output_dir (CONFIG (world h))) = Some can_write ->
  exists posts h',
    generate_posts h
    = (Return (generation_report posts
                 (if can_write (queue_path (world h))
                  then queue_path (world h) else "Error saving file")), h')
    /\ length posts = 4%nat
    /\ Forall (composed_post (world h)) posts.
Proof.
  intros Hkey Hdirs. rewrite generate_posts_cases, Hdirs.
  destruct (create_posts_returns 4 (with_writable (world h) can_write) Hkey)
    as (posts & l & Hposts & Hlen & Hall & _).
  rewrite Hposts. rewrite save_cases.
  change (queue_path (with_draws _ _)) with (queue_path (world h)).
  change (writable (with_draws _ _) (queue_path (world h)))
    with (can_write (queue_path (world h))).
  destruct (can_write (queue_path (world h))).
  - eexists; eexists. split; [reflexivity|]. split; [exact Hlen | exact Hall].
  - eexists; eexists. split; [reflexivity|]. split; [exact Hlen | exact Hall].
Qed.

Lemma generate_posts_returns_four_witness :
  exists posts h',
    generate_posts (host_of world_short None (Broken "ConnectionError") dirs_ok)
    = (Return (generation_report posts "/tmp/pending_posts/posts_20250801.json"), h')
    /\ length posts = 4%nat
    /\ Forall (composed_post world_short) posts.
Proof.
  apply (generate_posts_returns_four
           (host_of world_short None (Broken "ConnectionError") dirs_ok)
           (fun _ => true)); reflexivity.
Defined.

(** X22.  After the endpoint has saved its posts, the pending-posts endpoint
    returns these same posts, on the same day and with nothing written in
    between. *)
Theorem pending_posts_after_generation (h : Host) (can_write : string -> bool) :
  key_missing (world h) = false ->
  makedirs h (output_dir (CONFIG (world h))) = Some can_write ->
  can_write (queue_path (world h)) = true ->
  exists posts h',
    generate_posts h
    = (Return (generation_report posts (queue_path (world h))), h')
    /\ get_pending_posts (world h')
       = (Return (VDict [ ("message", VStr "Retrieved pending posts");
                          ("posts", VList posts) ]), world h').
Proof.
  intros Hkey Hdirs Hcan. rewrite generate_posts_cases, Hdirs.
  destruct (create_posts_returns 4 (with_writable (world h) can_write) Hkey)
    as (posts & l & Hposts & _ & _ & Hfaithful).
  rewrite Hposts.
  set (w1 := with_draws _ _).
  assert (Hw : writable w1 (queue_path w1) = true) by exact Hcan.
  rewrite save_cases, Hw.
  exists posts; eexists. split; [reflexivity|].
  cbn [world with_world]. unfold get_pending_posts, bind.
  rewrite (load_after_write posts w1 Hfaithful). reflexivity.
Qed.

Lemma pending_posts_after_generation_witness :
  exists posts h',
    generate_posts (host_of world_short None (Broken "ConnectionError") dirs_ok)
    = (Return (generation_report posts "/tmp/pending_posts/posts_20250801.json"), h')
    /\ get_pending_posts (world h')
       = (Return (VDict [ ("message", VStr "Retrieved pending posts");
                          ("posts", VList posts) ]), world h').
Proof.
  apply (pending_posts_after_generation
           (host_of world_short None (Broken "ConnectionError") dirs_ok)
           (fun _ => true)); reflexivity.
Defined.

(** X23.  Without the key the endpoint raises the server error of the
    generator at its first post, once the output directory is in place: no
    request is sent, no file is written and nothing is relayed. *)
Theorem generate_posts_without_key (h : Host) (can_write : string -> bool) :
  key_missing (world h) = true ->
  makedirs h (output_dir (CONFIG (world h))) = Some can_write ->
  generate_posts h
  = (Raise (HTTPException 500 "HUGGINGFACE_API_KEY is not configured."),
     with_world h
       (with_draws (with_writable (world h) can_write) (S (draws (world h))))).
Proof.
  intros Hkey Hdirs. rewrite generate_posts_cases, Hdirs.
  cbn [create_posts]. unfold bind at 1.
  unfold create_post, bind, Py.random_choice.
  rewrite generate_unfold. rewrite key_missing_with_draws.
  change (key_missing (with_writable (world h) can_write))
    with (key_missing (world h)).
  rewrite Hkey. reflexivity.
Qed.

Lemma generate_posts_without_key_witness :
  generate_posts (host_of world_no_key None (Broken "ConnectionError") dirs_ok)
  = (Raise (HTTPException 500 "HUGGINGFACE_API_KEY is not configured."),
     with_world (host_of world_no_key None (Broken "ConnectionError") dirs_ok)
       (with_draws (with_writable world_no_key (fun _ => true)) 1)).
Proof.
  apply (generate_posts_without_key
           (host_of world_no_key None (Broken "ConnectionError") dirs_ok)
           (fun _ => true)); reflexivity.
Defined.

(** X24.  When the output directory cannot be made the endpoint raises at
    once: nothing is generated, sent or written, and the host is as before. *)
Theorem generate_posts_without_directory (h : Host) :
  makedirs h (output_dir (CONFIG (world h))) = None ->
  generate_posts h = (Raise (OtherError "OSError"), h).
Proof.
  intros Hdirs. rewrite generate_posts_cases, Hdirs. reflexivity.
Qed.

Lemma generate_posts_without_directory_witness :
  generate_posts (host_of world_short None (Broken "ConnectionError") dirs_denied)
  = (Raise (OtherError "OSError"),
     host_of world_short None (Broken "ConnectionError") dirs_denied).
Proof. apply generate_posts_without_directory. reflexivity. Defined.

(** X25.  The endpoint never relays: whatever the key, the directory and the
    services do, the calls made to the webhook are as before. *)
Theorem generate_posts_never_relays (h : Host) :
  relayed (snd (generate_posts h)) = relayed h.
Proof.
  rewrite generate_posts_cases.
  destruct (makedirs h (output_dir (CONFIG (world h)))) as [can_write|];
    [|reflexivity].
  destruct (create_posts 4 (with_writable (world h) can_write)) as [[posts|e] w1];
    [|reflexivity].
  destruct (save_posts_for_review posts w1) as [[file_path|e] w2]; reflexivity.
Qed.
